(** * Inventory repository of the library management system

    A shallow embedding of [src/db/crud/books.crud.ts]: the catalogue
    table [books], the table [physical_books] of physical copies, the
    queries the repository sends to the store, and the exported
    functions built from them.

    Conventions.
    - A JavaScript [number] that holds an identifier, a count, a page or
      a page size is an integer of [Z]; the quotient handed to
      [Math.ceil] is computed exactly (counts stay far below 2^53).
    - A string is a [string], one [ascii] per character.
    - An [async] function is a computation of the monad [Db]: it reads
      and writes the store and either returns a value or throws.
    - The store may reject any statement.  The list [faults] of the
      store says which of the next statements are rejected, one flag per
      statement, in the order in which they are issued.
    - A table is a list of rows.  The order of the list stands for the
      order in which the store scans the table, which the store may
      change from one statement to the next; what is to hold of every
      such order is stated for every arrangement of the rows. *)

From Stdlib Require Import String Ascii.
From Stdlib Require Import ZArith List Bool Lia.
From Stdlib Require Import Sorting.Sorted Sorting.Permutation.
From Stdlib Require OrderedTypeEx.
Import ListNotations.

Local Open Scope string_scope.
Local Open Scope list_scope.
Local Open Scope Z_scope.

(** ** Rows of the two tables *)

(** Modelled from the spec: the declaration of the table [books] in
    [@/drizzle/schema] is not among the sources.  The columns are those
    of the spec's Title, under the names the source reads and writes
    them by. *)
Record Book : Type := mkBook {
  id : Z;
  isbn : string;
  title : string;
  author : string;
  genre : string;
  totalCopies : Z;
  availableCopies : Z;
  cover : string
}.

(** Modelled from the spec: the declaration of the table
    [physical_books] in [@/drizzle/schema] is not among the sources.
    The columns are those of the spec's Copy, under the names the
    source uses; the three that may be null are options. *)
Record PhysicalBook : Type := mkPhysicalBook {
  pid : Z;
  bookId : Z;
  borrowed : bool;
  returnDate : option string;
  userId : option string;
  currTransactionId : option Z
}.

(** The insert parameters of a title: [typeof books.$inferInsert] as
    [createBooks] fills it (no [id], the store assigns it). *)
Record BookInsert : Type := mkBookInsert {
  ins_isbn : string;
  ins_title : string;
  ins_author : string;
  ins_genre : string;
  ins_totalCopies : Z;
  ins_availableCopies : Z;
  ins_cover : string
}.

(** ** The store *)

Record Store : Type := mkStore {
  tbl_books : list Book;
  tbl_physicalBooks : list PhysicalBook;
  next_id : Z;            (* the serial of [books.id] *)
  next_pid : Z;           (* the serial of [physical_books.pid] *)
  faults : list bool      (* [true]: the statement is rejected *)
}.

Definition with_books (l : list Book) (s : Store) : Store :=
  mkStore l (tbl_physicalBooks s) (next_id s) (next_pid s) (faults s).

Definition with_physicalBooks (l : list PhysicalBook) (s : Store) : Store :=
  mkStore (tbl_books s) l (next_id s) (next_pid s) (faults s).

Definition with_next_id (n : Z) (s : Store) : Store :=
  mkStore (tbl_books s) (tbl_physicalBooks s) n (next_pid s) (faults s).

Definition with_faults (f : list bool) (s : Store) : Store :=
  mkStore (tbl_books s) (tbl_physicalBooks s) (next_id s) (next_pid s) f.

(** ** Values thrown and the monad of asynchronous computations *)

Inductive Exn : Type :=
| StoreError                 (* a statement rejected by the store *)
| JsError (message : string) (* [new Error(message)] *).

Inductive Outcome (A : Type) : Type :=
| Returned (a : A)
| Thrown (e : Exn).

Arguments Returned {A} a.
Arguments Thrown {A} e.

Definition Db (A : Type) : Type := Store -> Outcome A * Store.

Definition ret {A} (a : A) : Db A := fun s => (Returned a, s).

Definition throw {A} (e : Exn) : Db A := fun s => (Thrown e, s).

Definition bind {A B} (m : Db A) (k : A -> Db B) : Db B :=
  fun s =>
    match m s with
    | (Returned a, s') => k a s'
    | (Thrown e, s') => (Thrown e, s')
    end.

(** [try { body } catch (error) { handler error }] *)
Definition try_catch {A} (body : Db A) (handler : Exn -> Db A) : Db A :=
  fun s =>
    match body s with
    | (Returned a, s') => (Returned a, s')
    | (Thrown e, s') => handler e s'
    end.

(** [await Promise.all([p, q])]: both statements are issued, and the
    first rejection, if any, is thrown. *)
Definition promise_all2 {A B} (p : Db A) (q : Db B) : Db (A * B) :=
  fun s =>
    let (ra, s1) := p s in
    let (rb, s2) := q s1 in
    match ra, rb with
    | Returned a, Returned b => (Returned (a, b), s2)
    | Thrown e, _ => (Thrown e, s2)
    | _, Thrown e => (Thrown e, s2)
    end.

Declare Scope db_scope.
Delimit Scope db_scope with db.
Notation "x <- m ;; k" := (bind m (fun x => k))
  (at level 100, m at next level, right associativity) : db_scope.
Notation "' p <- m ;; k" := (bind m (fun p => k))
  (at level 100, p pattern, m at next level, right associativity) : db_scope.
Notation "m ;;; k" := (bind m (fun _ => k))
  (at level 100, right associativity) : db_scope.

(** One statement sent to the store: it takes the next flag of
    [faults]; a rejected statement throws and changes no table. *)
Definition next_statement (s : Store) : Store :=
  with_faults (tl (faults s)) s.

Definition statement {A} (body : Db A) : Db A :=
  fun s =>
    if hd false (faults s)
    then (Thrown StoreError, next_statement s)
    else body (next_statement s).

(** [rejected n s]: the store in state [s] will reject the [n]-th
    statement issued from now on (counting from 0). *)
Definition rejected (n : nat) (s : Store) : bool := nth n (faults s) false.

(** What a computation has when it ends. *)
Definition outcome {A} (r : Outcome A * Store) : Outcome A := fst r.
Definition final {A} (r : Outcome A * Store) : Store := snd r.

(** ** JavaScript values *)

(** A value that may be [null] or [undefined]. *)
Inductive Nullable (A : Type) : Type :=
| Value (a : A)
| Null
| Undefined.

Arguments Value {A} a.
Arguments Null {A}.
Arguments Undefined {A}.

(** [rows[0]] *)
Definition first_row {A} (rows : list A) : Nullable A :=
  match rows with
  | r :: _ => Value r
  | [] => Undefined
  end.

(** [v || null], for [v] a row (an object, always truthy) or
    [undefined]. *)
Definition or_null {A} (v : Nullable A) : Nullable A :=
  match v with
  | Value a => Value a
  | Null | Undefined => Null
  end.

(** The result of a division handed to [Math.ceil]. *)
Inductive JsNumber : Type :=
| Num (z : Z)
| Infinity
| NaN.

(** [Math.ceil(count / pageSize)] for a count [count >= 0]. *)
Definition math_ceil_div (count pageSize : Z) : JsNumber :=
  if pageSize =? 0 then
    if count =? 0 then NaN else Infinity
  else Num (- ((- count) / pageSize)).

(** A non-empty string is truthy. *)
Definition truthy (s : string) : bool :=
  match s with
  | EmptyString => false
  | String _ _ => true
  end.

(** ** Operators of the query language *)

(** [any_suffix f t]: [f] holds of [t] or of one of its proper
    suffixes. *)
Definition any_suffix (f : string -> bool) : string -> bool :=
  fix go (t : string) : bool :=
    f t ||
    match t with
    | EmptyString => false
    | String _ t' => go t'
    end.

(** [LIKE] of the store, on a pattern [p] and a text [s]: [%] stands
    for any run of characters, [_] for any one character, and a
    backslash takes the next character of the pattern literally.  A
    pattern that ends in a lone backslash matches nothing here; the
    patterns of this file all end in [%]. *)
Fixpoint like_match (p s : string) {struct p} : bool :=
  match p with
  | EmptyString =>
      match s with
      | EmptyString => true
      | String _ _ => false
      end
  | String c p' =>
      if (c =? "%")%char then any_suffix (like_match p') s
      else if (c =? "_")%char then
        match s with
        | EmptyString => false
        | String _ s' => like_match p' s'
        end
      else if (c =? "\")%char then
        match p' with
        | EmptyString => false
        | String d p'' =>
            match s with
            | EmptyString => false
            | String e s' => (d =? e)%char && like_match p'' s'
            end
        end
      else
        match s with
        | EmptyString => false
        | String e s' => (c =? e)%char && like_match p' s'
        end
  end.

(** [LOWER] of the store, on the letters A to Z. *)
Definition lower_ascii (c : ascii) : ascii :=
  let n := nat_of_ascii c in
  if (65 <=? n)%nat && (n <=? 90)%nat then ascii_of_nat (n + 32) else c.

Fixpoint LOWER (s : string) : string :=
  match s with
  | EmptyString => EmptyString
  | String c s' => String (lower_ascii c) (LOWER s')
  end.

(** [like(column, pattern)] of drizzle. *)
Definition like {A} (column : A -> string) (pattern : string) : A -> bool :=
  fun row => like_match pattern (column row).

(** [LOWER(column) LIKE LOWER(pattern)], as the raw SQL of
    [fetchBooksByQuery] writes it. *)
Definition lower_like {A} (column : A -> string) (pattern : string)
  : A -> bool :=
  fun row => like_match (LOWER pattern) (LOWER (column row)).

Definition or_ {A} (conds : list (A -> bool)) : A -> bool :=
  fun row => existsb (fun c => c row) conds.

Definition and_ {A} (conds : list (A -> bool)) : A -> bool :=
  fun row => forallb (fun c => c row) conds.

Definition eq_Z {A} (column : A -> Z) (v : Z) : A -> bool :=
  fun row => column row =? v.

Definition eq_bool {A} (column : A -> bool) (v : bool) : A -> bool :=
  fun row => Bool.eqb (column row) v.

(** The columns of [books]. *)
Inductive Column : Type :=
| col_id | col_isbn | col_title | col_author | col_genre
| col_totalCopies | col_availableCopies | col_cover.

(** The column of [books] of a given name, [None] when [books] has no
    column of that name.  The names are those of the record [Book]. *)
Definition books_column (name : string) : option Column :=
  if (name =? "id")%string then Some col_id
  else if (name =? "isbn")%string then Some col_isbn
  else if (name =? "title")%string then Some col_title
  else if (name =? "author")%string then Some col_author
  else if (name =? "genre")%string then Some col_genre
  else if (name =? "totalCopies")%string then Some col_totalCopies
  else if (name =? "availableCopies")%string then Some col_availableCopies
  else if (name =? "cover")%string then Some col_cover
  else None.

(** The order of the store on the values of a column: integers by
    value, texts character by character. *)
Definition col_leb (c : Column) (a b : Book) : bool :=
  match c with
  | col_id => id a <=? id b
  | col_isbn => String.leb (isbn a) (isbn b)
  | col_title => String.leb (title a) (title b)
  | col_author => String.leb (author a) (author b)
  | col_genre => String.leb (genre a) (genre b)
  | col_totalCopies => totalCopies a <=? totalCopies b
  | col_availableCopies => availableCopies a <=? availableCopies b
  | col_cover => String.leb (cover a) (cover b)
  end.

(** What the table object [books] holds under a name: one of its
    columns, another value, or nothing ([undefined]). *)
Inductive Property : Type :=
| a_column (c : Column)
| another_value
| undefined_value.

(** The names of the functions every JavaScript object inherits. *)
Definition object_members : list string :=
  ["constructor"; "toString"; "toLocaleString"; "valueOf"; "hasOwnProperty";
   "isPrototypeOf"; "propertyIsEnumerable"; "__defineGetter__";
   "__defineSetter__"; "__lookupGetter__"; "__lookupSetter__"]%string.

(** Modelled from the spec: the table object [books] is declared in
    [@/drizzle/schema], which is not among the sources.  [books[name]]
    is here the column of that name, for the names of the spec's Title;
    another value for the names of the functions every object inherits;
    and [undefined] for any other name. *)
Definition books_property (name : string) : Property :=
  match books_column name with
  | Some c => a_column c
  | None =>
      if existsb (String.eqb name) object_members
      then another_value
      else undefined_value
  end.

(** An [ORDER BY] clause is the order it asks for.  An order on a value
    that is no column is an order on a constant, under which all rows
    tie; an order on [undefined] has no expression to order by and is
    [None], which the store rejects. *)
Definition OrderBy : Type := option (Book -> Book -> bool).

Definition asc (p : Property) : OrderBy :=
  match p with
  | a_column c => Some (fun a b => col_leb c a b)
  | another_value => Some (fun _ _ => true)
  | undefined_value => None
  end.

Definition desc (p : Property) : OrderBy :=
  match p with
  | a_column c => Some (fun a b => col_leb c b a)
  | another_value => Some (fun _ _ => true)
  | undefined_value => None
  end.

(** [.limit(n)] of the query builder: the clause is left out when [n]
    is negative. *)
Definition dot_limit (n : Z) : option Z :=
  if n <? 0 then None else Some n.

(** [ORDER BY]: a stable insertion sort.  Rows that tie come out in the
    order of the table list, which stands for the order in which the
    store happens to scan the table; the store is free to scan in
    another order at every statement, so a property that is to hold of
    the store is stated for every arrangement of the rows. *)
Fixpoint insert_row {A} (le : A -> A -> bool) (x : A) (l : list A) : list A :=
  match l with
  | [] => [x]
  | y :: l' => if le x y then x :: l else y :: insert_row le x l'
  end.

Definition order_rows {A} (le : A -> A -> bool) (l : list A) : list A :=
  fold_right (insert_row le) [] l.

(** A [select] statement: [.where(..).orderBy(..).limit(..).offset(..)],
    each clause optional. *)
Record Select (A : Type) : Type := mkSelect {
  where_ : option (A -> bool);
  orderBy : option (option (A -> A -> bool));
  limit : option Z;
  offset : option Z
}.

Arguments mkSelect {A}.
Arguments where_ {A}.
Arguments orderBy {A}.
Arguments limit {A}.
Arguments offset {A}.

Definition apply_where {A} (w : option (A -> bool)) (rows : list A) : list A :=
  match w with
  | Some p => filter p rows
  | None => rows
  end.

(** The rows a [select] yields on a table: the rows that pass [WHERE],
    put in order, without the first [OFFSET] of them, cut at [LIMIT].
    The result is [None] when the store rejects the statement: an order
    with nothing to order by, a negative [LIMIT] or a negative
    [OFFSET]. *)
Definition eval_select {A} (q : Select A) (rows : list A) : option (list A) :=
  let filtered := apply_where (where_ q) rows in
  match
    match orderBy q with
    | None => Some filtered
    | Some None => None
    | Some (Some le) => Some (order_rows le filtered)
    end
  with
  | None => None
  | Some ordered =>
      match
        match offset q with
        | None => Some ordered
        | Some o => if o <? 0 then None else Some (skipn (Z.to_nat o) ordered)
        end
      with
      | None => None
      | Some skipped =>
          match limit q with
          | None => Some skipped
          | Some n => if n <? 0 then None else Some (firstn (Z.to_nat n) skipped)
          end
      end
  end.

(** ** Statements *)

Definition select_books (q : Select Book) : Db (list Book) :=
  statement (fun s =>
    match eval_select q (tbl_books s) with
    | Some rows => (Returned rows, s)
    | None => (Thrown StoreError, s)
    end).

Definition select_physicalBooks (q : Select PhysicalBook)
  : Db (list PhysicalBook) :=
  statement (fun s =>
    match eval_select q (tbl_physicalBooks s) with
    | Some rows => (Returned rows, s)
    | None => (Thrown StoreError, s)
    end).

(** [select({ count }).from(books).where(w)] with [count] the number
    of rows, read at [[0].count].  The driver hands the count over as
    the decimal text of an integer; it is here the integer the text
    denotes, which is what [/] and [Number] make of it. *)
Definition count_books (w : option (Book -> bool)) : Db Z :=
  statement (fun s =>
    (Returned (Z.of_nat (List.length (apply_where w (tbl_books s)))), s)).

Definition count_physicalBooks (w : option (PhysicalBook -> bool)) : Db Z :=
  statement (fun s =>
    (Returned (Z.of_nat (List.length (apply_where w (tbl_physicalBooks s)))),
     s)).

(** What the driver returns for a statement without [returning]: the
    command, the number of rows written, and no row. *)
Record QueryResult : Type := mkQueryResult {
  command : string;
  rowCount : Z;
  rows : list Book
}.

Definition new_book (i : Z) (v : BookInsert) : Book :=
  mkBook i (ins_isbn v) (ins_title v) (ins_author v) (ins_genre v)
         (ins_totalCopies v) (ins_availableCopies v) (ins_cover v).

(** [db.insert(books).values(v)]: the row gets the next serial as its
    [id]; the statement has no [returning] clause. *)
Definition insert_books (v : BookInsert) : Db QueryResult :=
  statement (fun s =>
    (Returned (mkQueryResult "INSERT" 1 []),
     with_next_id (next_id s + 1)
       (with_books (tbl_books s ++ [new_book (next_id s) v]) s))).

(** [db.update(books).set(..).where(w).returning()] *)
Definition update_books_returning (set : Book -> Book) (w : Book -> bool)
  : Db (list Book) :=
  statement (fun s =>
    (Returned (map set (filter w (tbl_books s))),
     with_books (map (fun b => if w b then set b else b) (tbl_books s)) s)).

(** [db.delete(physicalBooks).where(w)] *)
Definition delete_physicalBooks (w : PhysicalBook -> bool) : Db QueryResult :=
  statement (fun s =>
    (Returned
       (mkQueryResult "DELETE"
          (Z.of_nat (List.length (filter w (tbl_physicalBooks s)))) []),
     with_physicalBooks
       (filter (fun r => negb (w r)) (tbl_physicalBooks s)) s)).

(** ** The exported functions *)

Local Open Scope db_scope.

Definition createBooks
  (isbn' title' author' genre' : string) (totalCopies' availableCopies' : Z)
  (cover' : string) : Db QueryResult :=
  let book :=
    mkBookInsert isbn' title' author' genre' totalCopies' availableCopies'
                 cover' in
  try_catch
    (res <- insert_books book ;;
     ret res)
    (fun error => throw error).

(** The object [readBooks] returns.  A caller that leaves arguments
    out gets [page = 1], [pageSize = 10], [sortField = "title"],
    [sortOrder = "asc"] and an empty [searchQuery]; here every argument is
    given. *)
Record BooksPage : Type := mkBooksPage {
  books : list Book;
  totalBooks : Z;
  totalPages : JsNumber
}.

Definition readBooks
  (page pageSize : Z) (sortField sortOrder searchQuery : string)
  : Db BooksPage :=
  let offset := (page - 1) * pageSize in
  let searchPattern := ("%" ++ searchQuery ++ "%")%string in
  let whereClause :=
    if truthy searchQuery
    then Some (or_ [like title searchPattern;
                    like author searchPattern;
                    like isbn searchPattern])
    else None in
  let orderByClause :=
    if (sortOrder =? "desc")%string
    then desc (books_property sortField)
    else asc (books_property sortField) in
  ' (booksList, total) <-
    promise_all2
      (select_books
         (mkSelect whereClause (Some orderByClause) (dot_limit pageSize)
                   (Some offset)))
      (count_books whereClause) ;;
  ret (mkBooksPage booksList total (math_ceil_div total pageSize)).

Definition updateBooks (id' totalCopies' availableCopies' : Z)
  : Db (Nullable Book) :=
  try_catch
    (updatedBook <-
       update_books_returning
         (fun b =>
            mkBook (id b) (isbn b) (title b) (author b) (genre b)
                   totalCopies' availableCopies' (cover b))
         (eq_Z id id') ;;
     ret (first_row updatedBook))
    (fun error => ret Null).

Definition fetchLimitedBooks (limit' : Z) : Db (list Book) :=
  try_catch
    (booksData <-
       select_books
         (mkSelect None (Some (desc (a_column col_id))) (dot_limit limit')
                   None) ;;
     ret booksData)
    (fun error => ret []).

Definition fetchBookById (id' : Z) : Db (Nullable Book) :=
  result <-
    select_books (mkSelect (Some (eq_Z id id')) None (Some 1) None) ;;
  ret (or_null (first_row result)).

Definition deletePhysicalBook (pid' : Z) : Db bool :=
  try_catch
    (physicalBook <-
       select_physicalBooks
         (mkSelect (Some (eq_Z pid pid')) None (Some 1) None) ;;
     match physicalBook with
     | [] => throw (JsError "Physical book not found")
     | first :: _ =>
         if borrowed first
         then throw (JsError "Cannot remove a borrowed book")
         else
           (delete_physicalBooks (eq_Z pid pid') ;;;
            ret true)
     end)
    (fun error => throw error).

(** The object [fetchBooksByQuery] returns. *)
Record SearchPage : Type := mkSearchPage {
  q_books : list Book;
  q_totalPages : JsNumber;
  q_currentPage : Z;
  q_totalBooks : Z
}.

(** The [where] clause of both statements of [fetchBooksByQuery]
    (arguments left out: [page = 1], [pageSize = 10]). *)
Definition query_clause (query : string) : Book -> bool :=
  let pattern := ("%" ++ query ++ "%")%string in
  or_ [lower_like title pattern;
       lower_like author pattern;
       lower_like isbn pattern;
       lower_like genre pattern].

Definition fetchBooksByQuery (query : string) (page pageSize : Z)
  : Db SearchPage :=
  try_catch
    (let offset := (page - 1) * pageSize in
     ' (searchResults, totalCount) <-
       promise_all2
         (select_books
            (mkSelect (Some (query_clause query))
                      (Some (desc (a_column col_id)))
                      (dot_limit pageSize) (Some offset)))
         (res <-
            select_books (mkSelect (Some (query_clause query)) None None None) ;;
          ret (Z.of_nat (List.length res))) ;;
     ret (mkSearchPage searchResults (math_ceil_div totalCount pageSize)
                       page totalCount))
    (fun error => ret (mkSearchPage [] (Num 0) page 0)).

(** The object [readSingleBook] returns: the columns of the title and
    the number of its copies that are not borrowed. *)
Record BookWithAvailability : Type := mkBookWithAvailability {
  book : Book;
  availableBooks : Z
}.

Definition readSingleBook (bookId' : Z) : Db (Nullable BookWithAvailability) :=
  try_catch
    (book' <-
       select_books (mkSelect (Some (eq_Z id bookId')) None (Some 1) None) ;;
     match book' with
     | [] => ret Null
     | first :: _ =>
         availableCount <-
           count_physicalBooks
             (Some (and_ [eq_Z bookId bookId'; eq_bool borrowed false])) ;;
         ret (Value (mkBookWithAvailability first availableCount))
     end)
    (fun error => throw error).

Local Close Scope db_scope.

(** ** The other exported functions *)

Definition with_next_pid (n : Z) (s : Store) : Store :=
  mkStore (tbl_books s) (tbl_physicalBooks s) (next_id s) n (faults s).

(** [db.delete(books).where(w)] *)
Definition delete_books (w : Book -> bool) : Db QueryResult :=
  statement (fun s =>
    (Returned
       (mkQueryResult "DELETE"
          (Z.of_nat (List.length (filter w (tbl_books s)))) []),
     with_books (filter (fun r => negb (w r)) (tbl_books s)) s)).

(** [db.update(books).set(..).where(w)], with no [returning] clause. *)
Definition update_books (set : Book -> Book) (w : Book -> bool)
  : Db QueryResult :=
  statement (fun s =>
    (Returned
       (mkQueryResult "UPDATE"
          (Z.of_nat (List.length (filter w (tbl_books s)))) []),
     with_books (map (fun b => if w b then set b else b) (tbl_books s)) s)).

(** [db.insert(physicalBooks).values(v).returning({..})] with all six
    columns returned: the row gets the next serial as its [pid], and
    the statement yields the rows it wrote. *)
Definition insert_physicalBooks_returning
  (bookId' : Z) (borrowed' : bool) (returnDate' : option string)
  (userId' : option string) (currTransactionId' : option Z)
  : Db (list PhysicalBook) :=
  statement (fun s =>
    let row :=
      mkPhysicalBook (next_pid s) bookId' borrowed' returnDate' userId'
                     currTransactionId' in
    (Returned [row],
     with_next_pid (next_pid s + 1)
       (with_physicalBooks (tbl_physicalBooks s ++ [row]) s))).

Local Open Scope db_scope.

Definition deleteBooks (id' : Z) : Db unit :=
  try_catch
    (res <- delete_books (eq_Z id id') ;;
     ret tt)
    (fun error => ret tt).

Definition createPhysicalBooks
  (bookId' : Z) (borrowed' : bool) (returnDate' : option string)
  (userId' : string) (currTransactionId' : Z) : Db (Nullable PhysicalBook) :=
  try_catch
    (inserted <-
       insert_physicalBooks_returning bookId' borrowed' returnDate'
         (Some userId') (Some currTransactionId') ;;
     let newBook := first_row inserted in
     ret newBook)
    (fun error => throw error).

Definition getActivePhysicalBooksCount (bookId' : Z) : Db Z :=
  try_catch
    (result <-
       select_physicalBooks
         (mkSelect (Some (eq_Z bookId bookId')) None None None) ;;
     ret (Z.of_nat (List.length result)))
    (fun error => throw error).

Definition updateBook
  (id' : Z) (title' author' genre' isbn' : string)
  (totalCopies' availableCopies' : Z) (cover' : string) : Db QueryResult :=
  try_catch
    (res <-
       update_books
         (fun b =>
            mkBook (id b) isbn' title' author' genre' totalCopies'
                   availableCopies' cover')
         (eq_Z id id') ;;
     ret res)
    (fun error => throw error).

Definition readPhysicalBooks (bookId' : Z) : Db (list PhysicalBook) :=
  try_catch
    (result <-
       select_physicalBooks
         (mkSelect (Some (eq_Z bookId bookId')) None None None) ;;
     ret result)
    (fun error => throw error).

Local Close Scope db_scope.

(** ** A small catalogue to run the functions on *)

Definition dune : Book :=
  mkBook 1 "9780441013593" "Dune" "Frank Herbert" "SciFi" 3 1 "dune.png".
Definition emma : Book :=
  mkBook 2 "9780141439587" "Emma" "Jane Austen" "Novel" 2 2 "emma.png".
Definition ulysses : Book :=
  mkBook 3 "9780199535675" "Ulysses" "James Joyce" "Novel" 1 0 "u.png".

Definition copy1 : PhysicalBook := mkPhysicalBook 10 1 false None None None.
Definition copy2 : PhysicalBook :=
  mkPhysicalBook 11 1 true (Some "2026-01-01") (Some "u7") (Some 5).
Definition copy3 : PhysicalBook := mkPhysicalBook 12 1 false None None None.

Definition shelf : Store :=
  mkStore [dune; emma; ulysses] [copy1; copy2; copy3] 4 13 [].

(** ** Notions the properties are stated with *)

(** [starts_with q s]: [q] is a prefix of [s], character by character. *)
Fixpoint starts_with (q s : string) : bool :=
  match q with
  | EmptyString => true
  | String c q' =>
      match s with
      | EmptyString => false
      | String d s' => (c =? d)%char && starts_with q' s'
      end
  end.

(** [containsb q s]: [q] occurs in [s] as a substring, case and all. *)
Definition containsb (q s : string) : bool := any_suffix (starts_with q) s.

(** A character that [LIKE] reads as itself. *)
Definition plain_char (c : ascii) : bool :=
  negb (c =? "%")%char && negb (c =? "_")%char && negb (c =? "\")%char.

Fixpoint plain (q : string) : bool :=
  match q with
  | EmptyString => true
  | String c q' => plain_char c && plain q'
  end.

(** The two errors [deletePhysicalBook] throws of its own. *)
Definition NotFoundError : Exn := JsError "Physical book not found".
Definition InvalidStateError : Exn := JsError "Cannot remove a borrowed book".

(** The number of copies of a title that are not borrowed. *)
Definition available_copies (bookId' : Z) (s : Store) : Z :=
  Z.of_nat
    (List.length
       (filter (fun c => (bookId c =? bookId') && negb (borrowed c))
               (tbl_physicalBooks s))).

(** The rows of page [page] of a listing [l], [pageSize] rows a page. *)
Definition page_slice {A} (page pageSize : Z) (l : list A) : list A :=
  firstn (Z.to_nat pageSize) (skipn (Z.to_nat ((page - 1) * pageSize)) l).

(** The rows [.limit(n)] leaves of a list: all of them when [n] is
    negative. *)
Definition limited {A} (n : Z) (l : list A) : list A :=
  if n <? 0 then l else firstn (Z.to_nat n) l.

(** The rows [readBooks] searches among: those that match the pattern
    made of [searchQuery], all rows when [searchQuery] is empty. *)
Definition search_clause (searchQuery : string) : option (Book -> bool) :=
  if truthy searchQuery
  then Some (or_ [like title ("%" ++ searchQuery ++ "%")%string;
                  like author ("%" ++ searchQuery ++ "%")%string;
                  like isbn ("%" ++ searchQuery ++ "%")%string])
  else None.

(** The order [readBooks] asks for on column [c]. *)
Definition sort_order (sortOrder : string) (c : Column) : Book -> Book -> bool :=
  if (sortOrder =? "desc")%string
  then fun a b => col_leb c b a
  else fun a b => col_leb c a b.

(** The whole listing [readBooks] pages through. *)
Definition listing (c : Column) (sortOrder searchQuery : string) (s : Store)
  : list Book :=
  order_rows (sort_order sortOrder c)
             (apply_where (search_clause searchQuery) (tbl_books s)).

(** The rows of [readBooks] on a page, none when it throws. *)
Definition page_items
  (pageSize : Z) (sortField sortOrder searchQuery : string) (s : Store)
  (page : Z) : list Book :=
  match outcome (readBooks page pageSize sortField sortOrder searchQuery s) with
  | Returned r => books r
  | Thrown _ => []
  end.

(** The pages 1 to [n], one after the other, page [p] read from the
    store as [scan p] has it. *)
Definition pages_concat
  (pageSize : Z) (sortField sortOrder searchQuery : string)
  (scan : Z -> Store) (n : nat) : list Book :=
  flat_map
    (fun p => page_items pageSize sortField sortOrder searchQuery (scan p) p)
    (map Z.of_nat (seq 1 n)).

(** The rows that match the search of [readBooks]. *)
Definition matching (searchQuery : string) (s : Store) : list Book :=
  apply_where (search_clause searchQuery) (tbl_books s).

(** [scans_of s scan]: one store state [s] as the reads of the pages
    find it.  Every [scan p] holds the rows of [s]; the order in which
    its table lists them is the order in which the store scans them for
    page [p], which the store chooses anew for every statement.  The
    store accepts the two statements of every read. *)
Definition scans_of (s : Store) (scan : Z -> Store) : Prop :=
  forall p,
    Permutation (tbl_books s) (tbl_books (scan p)) /\
    rejected 0 (scan p) = false /\ rejected 1 (scan p) = false.

(** The names of the columns of [books]. *)
Definition column_names : list string :=
  ["id"; "isbn"; "title"; "author"; "genre"; "totalCopies";
   "availableCopies"; "cover"]%string.

(** [ascends_on sortField a b]: on the column named [sortField], the
    value of [a] is no greater than that of [b]; integers by value,
    texts character by character. *)
Definition ascends_on (sortField : string) (a b : Book) : Prop :=
  (sortField = "id"%string -> id a <= id b) /\
  (sortField = "isbn"%string -> String.leb (isbn a) (isbn b) = true) /\
  (sortField = "title"%string -> String.leb (title a) (title b) = true) /\
  (sortField = "author"%string -> String.leb (author a) (author b) = true) /\
  (sortField = "genre"%string -> String.leb (genre a) (genre b) = true) /\
  (sortField = "totalCopies"%string -> totalCopies a <= totalCopies b) /\
  (sortField = "availableCopies"%string ->
   availableCopies a <= availableCopies b) /\
  (sortField = "cover"%string -> String.leb (cover a) (cover b) = true).

(** Two rows tie on a column when each is no greater than the other. *)
Definition ties_on (sortField : string) (a b : Book) : Prop :=
  ascends_on sortField a b /\ ascends_on sortField b a.

(** No two rows of a list tie: the rows are distinct, and rows that tie
    are one and the same. *)
Definition no_ties (sortField : string) (l : list Book) : Prop :=
  NoDup l /\
  forall a b, In a l -> In b l -> ties_on sortField a b -> a = b.

(** The pages of [readBooks] read as covering the listing whatever the
    store does with ties: the pages 1 to [totalPages] hold [totalBooks]
    rows, none of them twice. *)
Definition pages_cover
  (pageSize : Z) (sortField sortOrder searchQuery : string)
  (scan : Z -> Store) : Prop :=
  forall r1 k,
    outcome (readBooks 1 pageSize sortField sortOrder searchQuery (scan 1)) =
    Returned r1 ->
    totalPages r1 = Num (Z.of_nat k) ->
    Z.of_nat
      (List.length (pages_concat pageSize sortField sortOrder searchQuery
                                 scan k)) = totalBooks r1 /\
    NoDup (pages_concat pageSize sortField sortOrder searchQuery scan k).

(** The [ORDER BY] clause [readBooks] builds. *)
Definition clause_order (sortOrder : string) (p : Property) : OrderBy :=
  if (sortOrder =? "desc")%string then desc p else asc p.

(** The row [updateBooks] writes in place of [b]. *)
Definition with_counts (totalCopies' availableCopies' : Z) (b : Book) : Book :=
  mkBook (id b) (isbn b) (title b) (author b) (genre b)
         totalCopies' availableCopies' (cover b).

(** The title a driver result carries, if it carries one. *)
Definition returned_title (res : QueryResult) : option Book :=
  hd_error (rows res).

(** The serial of [books.id] is ahead of every [id] in the table. *)
Definition ids_fresh (s : Store) : Prop :=
  forall b, In b (tbl_books s) -> id b < next_id s.

(** [createBooks] read as returning the created title: the result
    carries a title, and [fetchBookById] on the [id] of that title
    yields a record with the inserted values. *)
Definition returns_created_title (v : BookInsert) (s : Store) : Prop :=
  let r :=
    createBooks (ins_isbn v) (ins_title v) (ins_author v) (ins_genre v)
                (ins_totalCopies v) (ins_availableCopies v) (ins_cover v) s in
  exists res t b,
    outcome r = Returned res /\
    returned_title res = Some t /\
    outcome (fetchBookById (id t) (final r)) = Returned (Value b) /\
    isbn b = ins_isbn v /\ title b = ins_title v /\ author b = ins_author v /\
    genre b = ins_genre v /\ totalCopies b = ins_totalCopies v /\
    availableCopies b = ins_availableCopies v /\ cover b = ins_cover v.

Definition solaris : BookInsert :=
  mkBookInsert "9780156027601" "Solaris" "Stanislaw Lem" "SciFi" 2 2 "s.png".

(** A store with no title. *)
Definition no_titles : Store := mkStore [] [] 1 1 [].

(** The first page of ten read as holding everything on one page: with
    at most ten titles to list, page 1 has them all and [totalPages]
    is 1. *)
Definition single_page (s : Store) : Prop :=
  forall r,
    outcome (readBooks 1 10 "title" "asc" EmptyString s) = Returned r ->
    totalBooks r <= 10 ->
    Permutation (tbl_books s) (books r) /\ totalPages r = Num 1.

(** The shelf scanned in two orders: for page 2 the store lists the
    third title before the second, for the other pages it lists the
    titles as [shelf] does. *)
Definition tie_scans (p : Z) : Store :=
  if p =? 2
  then mkStore [dune; ulysses; emma] [copy1; copy2; copy3] 4 13 []
  else shelf.



(** [fetchBooksByQuery] read as a substring search that ignores case:
    every row it returns has the query inside its title, author, isbn
    or genre, letters compared in lower case. *)
Definition query_is_substring
  (query : string) (page pageSize : Z) (s : Store) : Prop :=
  forall r,
    outcome (fetchBooksByQuery query page pageSize s) = Returned r ->
    forall b,
      In b (q_books r) ->
      containsb (LOWER query) (LOWER (title b)) = true \/
      containsb (LOWER query) (LOWER (author b)) = true \/
      containsb (LOWER query) (LOWER (isbn b)) = true \/
      containsb (LOWER query) (LOWER (genre b)) = true.


(** A row matches the search of [fetchBooksByQuery]. *)
Definition query_match (query : string) (b : Book) : bool :=
  like_match (LOWER ("%" ++ query ++ "%")) (LOWER (title b)) ||
  like_match (LOWER ("%" ++ query ++ "%")) (LOWER (author b)) ||
  like_match (LOWER ("%" ++ query ++ "%")) (LOWER (isbn b)) ||
  like_match (LOWER ("%" ++ query ++ "%")) (LOWER (genre b)).

(** The serial of [physical_books.pid] is ahead of every [pid] in the
    table. *)
Definition pids_fresh (s : Store) : Prop :=
  forall c, In c (tbl_physicalBooks s) -> pid c < next_pid s.

(** The key of [books]: no [id] twice, and the serial ahead of all. *)
Definition books_keyed (s : Store) : Prop :=
  ids_fresh s /\ NoDup (map id (tbl_books s)).

(** The key of [physical_books]. *)
Definition physicalBooks_keyed (s : Store) : Prop :=
  pids_fresh s /\ NoDup (map pid (tbl_physicalBooks s)).

(** The copies of a title, and those of them that are lent. *)
Definition copies_of (bookId' : Z) (s : Store) : list PhysicalBook :=
  filter (eq_Z bookId bookId') (tbl_physicalBooks s).

Definition borrowed_copies (bookId' : Z) (s : Store) : Z :=
  Z.of_nat (List.length (filter borrowed (copies_of bookId' s))).

(** The row [updateBook] writes in place of a row of the given [id]. *)
Definition overwritten
  (id' : Z) (title' author' genre' isbn' : string)
  (totalCopies' availableCopies' : Z) (cover' : string) : Book :=
  mkBook id' isbn' title' author' genre' totalCopies' availableCopies' cover'.

(** The books of [fetchBooksByQuery] on a page, and the pages 1 to [n]
    one after the other. *)
Definition search_items
  (query : string) (pageSize : Z) (s : Store) (page : Z) : list Book :=
  match outcome (fetchBooksByQuery query page pageSize s) with
  | Returned r => q_books r
  | Thrown _ => []
  end.

Definition search_concat
  (query : string) (pageSize : Z) (s : Store) (n : nat) : list Book :=
  flat_map (search_items query pageSize s) (map Z.of_nat (seq 1 n)).

(** * Properties *)

(** ** Running statements *)

Lemma rejected_0 (s : Store) : rejected 0 s = hd false (faults s).
Proof. unfold rejected. destruct (faults s); reflexivity. Qed.

Lemma rejected_next (n : nat) (s : Store) :
  rejected n (next_statement s) = rejected (S n) s.
Proof.
  unfold rejected, next_statement. simpl.
  destruct (faults s) as [|f fs]; [destruct n|]; reflexivity.
Qed.

Lemma statement_accepted {A} (body : Db A) (s : Store) :
  rejected 0 s = false -> statement body s = body (next_statement s).
Proof. rewrite rejected_0. unfold statement. intros ->. reflexivity. Qed.

Lemma statement_rejected {A} (body : Db A) (s : Store) :
  rejected 0 s = true ->
  statement body s = (Thrown StoreError, next_statement s).
Proof. rewrite rejected_0. unfold statement. intros ->. reflexivity. Qed.

Lemma tbl_books_next (s : Store) : tbl_books (next_statement s) = tbl_books s.
Proof. reflexivity. Qed.

Lemma tbl_physicalBooks_next (s : Store) :
  tbl_physicalBooks (next_statement s) = tbl_physicalBooks s.
Proof. reflexivity. Qed.

(** A lookup by key with [limit 1] yields the first row of that key. *)
Lemma eval_select_by_key {A} (w : A -> bool) (rows : list A) :
  eval_select (mkSelect (Some w) None (Some 1) None) rows =
  Some (match find w rows with Some r => [r] | None => [] end).
Proof.
  unfold eval_select. simpl. f_equal.
  induction rows as [|r rows IH]; simpl; [reflexivity|].
  destruct (w r); simpl; [reflexivity|exact IH].
Qed.

Lemma find_none_iff {A} (w : A -> bool) (l : list A) :
  find w l = None <-> forall x, In x l -> w x = false.
Proof.
  split.
  - intros H x Hx. exact (find_none w l H x Hx).
  - induction l as [|y l IH]; simpl; intros H; [reflexivity|].
    rewrite (H y (or_introl eq_refl)). apply IH. intros x Hx.
    apply H. right. exact Hx.
Qed.

(** ** [fetchBookById] *)

Lemma fetchBookById_run (id' : Z) (s : Store) :
  fetchBookById id' s =
  if rejected 0 s
  then (Thrown StoreError, next_statement s)
  else (Returned
          match find (eq_Z id id') (tbl_books s) with
          | Some b => Value b
          | None => Null
          end,
        next_statement s).
Proof.
  unfold fetchBookById, bind, select_books.
  destruct (rejected 0 s) eqn:R.
  - rewrite (statement_rejected _ _ R). reflexivity.
  - rewrite (statement_accepted _ _ R), eval_select_by_key, tbl_books_next.
    unfold ret. destruct (find (eq_Z id id') (tbl_books s)); reflexivity.
Qed.

(** C10. [fetchBookById] handles no error of its own: a rejected query
    reaches the caller as a thrown error, a row of that id is returned
    as it is, and the result is [null] exactly when the query is
    accepted and no row of [books] has the id. *)
Theorem fetchBookById_null_iff (id' : Z) (s : Store) :
  (rejected 0 s = true ->
   outcome (fetchBookById id' s) = Thrown StoreError) /\
  (outcome (fetchBookById id' s) = Returned Null <->
   rejected 0 s = false /\ forall b, In b (tbl_books s) -> id b <> id') /\
  (forall b,
     rejected 0 s = false ->
     find (eq_Z id id') (tbl_books s) = Some b ->
     outcome (fetchBookById id' s) = Returned (Value b)).
Proof.
  rewrite fetchBookById_run.
  destruct (rejected 0 s) eqn:R; unfold outcome; simpl.
  - split; [reflexivity|]. split; [|discriminate].
    split; [discriminate|]. intros [H _]. discriminate H.
  - split; [discriminate|]. split.
    + destruct (find (eq_Z id id') (tbl_books s)) as [b|] eqn:F.
      * split; [discriminate|]. intros [_ H]. exfalso.
        apply find_some in F. destruct F as [Hin Hid].
        apply (H b Hin). unfold eq_Z in Hid. lia.
      * split; [|reflexivity]. intros _. split; [reflexivity|].
        intros b Hin Hid.
        pose proof (proj1 (find_none_iff _ _) F b Hin) as Hb.
        unfold eq_Z in Hb. lia.
    + intros b _ ->. reflexivity.
Qed.

Lemma fetchBookById_null_iff_witness :
  outcome (fetchBookById 9 shelf) = Returned Null /\
  outcome (fetchBookById 2 shelf) = Returned (Value emma) /\
  outcome (fetchBookById 2 (with_faults [true] shelf)) = Thrown StoreError.
Proof.
  split; [|split].
  - apply (proj1 (proj2 (fetchBookById_null_iff 9 shelf))).
    split; [reflexivity|]. intros b Hb.
    repeat (destruct Hb as [<-|Hb]; [discriminate|]). destruct Hb.
  - apply (proj2 (proj2 (fetchBookById_null_iff 2 shelf))); reflexivity.
  - apply (proj1 (fetchBookById_null_iff 2 (with_faults [true] shelf))).
    reflexivity.
Defined.

(** ** [readSingleBook] *)

Lemma count_available (bookId' : Z) (s : Store) :
  Z.of_nat
    (List.length
       (apply_where
          (Some (and_ [eq_Z bookId bookId'; eq_bool borrowed false]))
          (tbl_physicalBooks s))) =
  available_copies bookId' s.
Proof.
  unfold available_copies, apply_where. do 2 f_equal.
  apply filter_ext. intros c. unfold and_, eq_Z, eq_bool. simpl.
  destruct (bookId c =? bookId'), (borrowed c); reflexivity.
Qed.

Lemma readSingleBook_run (bookId' : Z) (s : Store) :
  readSingleBook bookId' s =
  if rejected 0 s
  then (Thrown StoreError, next_statement s)
  else
    match find (eq_Z id bookId') (tbl_books s) with
    | None => (Returned Null, next_statement s)
    | Some t =>
        if rejected 1 s
        then (Thrown StoreError, next_statement (next_statement s))
        else (Returned
                (Value (mkBookWithAvailability t (available_copies bookId' s))),
              next_statement (next_statement s))
    end.
Proof.
  unfold readSingleBook, try_catch, bind, select_books.
  destruct (rejected 0 s) eqn:R0.
  - rewrite (statement_rejected _ _ R0). reflexivity.
  - rewrite (statement_accepted _ _ R0), eval_select_by_key, tbl_books_next.
    destruct (find (eq_Z id bookId') (tbl_books s)) as [t|]; [|reflexivity].
    unfold count_physicalBooks.
    pose proof (rejected_next 0 s) as R1.
    destruct (rejected 1 s).
    + rewrite (statement_rejected _ _ R1). reflexivity.
    + rewrite (statement_accepted _ _ R1).
      rewrite !tbl_physicalBooks_next, count_available. reflexivity.
Qed.

(** C2. [readSingleBook] returns [null] when no row of [books] has the
    id.  Otherwise it returns the columns of the title together with
    [availableBooks], the number of rows of [physical_books] with that
    [bookId] and [borrowed = false], whatever the title's own
    [availableCopies] holds.  A rejected statement, the lookup or the
    count, is thrown to the caller. *)
Theorem readSingleBook_spec (bookId' : Z) (s : Store) :
  (rejected 0 s = false ->
   (forall b, In b (tbl_books s) -> id b <> bookId') ->
   outcome (readSingleBook bookId' s) = Returned Null) /\
  (forall t,
     rejected 0 s = false -> rejected 1 s = false ->
     find (eq_Z id bookId') (tbl_books s) = Some t ->
     outcome (readSingleBook bookId' s) =
     Returned (Value (mkBookWithAvailability t (available_copies bookId' s)))) /\
  (rejected 0 s = true ->
   outcome (readSingleBook bookId' s) = Thrown StoreError) /\
  (forall t,
     rejected 0 s = false -> rejected 1 s = true ->
     find (eq_Z id bookId') (tbl_books s) = Some t ->
     outcome (readSingleBook bookId' s) = Thrown StoreError).
Proof.
  rewrite readSingleBook_run. repeat split.
  - intros -> H.
    assert (F : find (eq_Z id bookId') (tbl_books s) = None).
    { apply find_none_iff. intros b Hb. specialize (H b Hb).
      unfold eq_Z. lia. }
    rewrite F. reflexivity.
  - intros t -> -> ->. reflexivity.
  - intros ->. reflexivity.
  - intros t -> -> ->. reflexivity.
Qed.

Lemma readSingleBook_spec_witness :
  availableCopies dune = 1 /\
  outcome (readSingleBook 1 shelf) =
  Returned (Value (mkBookWithAvailability dune 2)) /\
  outcome (readSingleBook 1 (with_faults [false; true] shelf)) =
  Thrown StoreError.
Proof.
  split; [reflexivity|]. split.
  - apply (proj1 (proj2 (readSingleBook_spec 1 shelf)) dune); reflexivity.
  - apply (proj2 (proj2 (proj2
             (readSingleBook_spec 1 (with_faults [false; true] shelf)))) dune);
      reflexivity.
Defined.

(** ** [deletePhysicalBook] *)

Lemma deletePhysicalBook_run (pid' : Z) (s : Store) :
  deletePhysicalBook pid' s =
  if rejected 0 s
  then (Thrown StoreError, next_statement s)
  else
    match find (eq_Z pid pid') (tbl_physicalBooks s) with
    | None => (Thrown NotFoundError, next_statement s)
    | Some c =>
        if borrowed c
        then (Thrown InvalidStateError, next_statement s)
        else if rejected 1 s
        then (Thrown StoreError, next_statement (next_statement s))
        else (Returned true,
              with_physicalBooks
                (filter (fun r => negb (eq_Z pid pid' r))
                        (tbl_physicalBooks s))
                (next_statement (next_statement s)))
    end.
Proof.
  unfold deletePhysicalBook, try_catch, bind, select_physicalBooks.
  destruct (rejected 0 s) eqn:R0.
  - rewrite (statement_rejected _ _ R0). reflexivity.
  - rewrite (statement_accepted _ _ R0), eval_select_by_key.
    rewrite tbl_physicalBooks_next.
    destruct (find (eq_Z pid pid') (tbl_physicalBooks s)) as [c|];
      [|reflexivity].
    destruct (borrowed c); [reflexivity|].
    unfold delete_physicalBooks.
    pose proof (rejected_next 0 s) as R1.
    destruct (rejected 1 s).
    + rewrite (statement_rejected _ _ R1). reflexivity.
    + rewrite (statement_accepted _ _ R1). reflexivity.
Qed.

(** C1. [deletePhysicalBook] first fetches the copy of the given [pid].
    With no such copy it throws the not-found error.  With a copy that
    is borrowed it throws the invalid-state error ("Cannot remove a
    borrowed book") and the table, that row included, is as before.
    With a copy that is not borrowed it deletes, returns [true], and
    the table then holds exactly its former rows of another [pid]. *)
Theorem deletePhysicalBook_guard (pid' : Z) (s : Store) :
  rejected 0 s = false ->
  ((forall c, In c (tbl_physicalBooks s) -> pid c <> pid') ->
   outcome (deletePhysicalBook pid' s) = Thrown NotFoundError /\
   tbl_physicalBooks (final (deletePhysicalBook pid' s)) =
   tbl_physicalBooks s) /\
  (forall c,
     find (eq_Z pid pid') (tbl_physicalBooks s) = Some c ->
     borrowed c = true ->
     outcome (deletePhysicalBook pid' s) = Thrown InvalidStateError /\
     tbl_physicalBooks (final (deletePhysicalBook pid' s)) =
     tbl_physicalBooks s /\
     In c (tbl_physicalBooks (final (deletePhysicalBook pid' s)))) /\
  (forall c,
     find (eq_Z pid pid') (tbl_physicalBooks s) = Some c ->
     borrowed c = false ->
     rejected 1 s = false ->
     outcome (deletePhysicalBook pid' s) = Returned true /\
     (forall c',
        In c' (tbl_physicalBooks (final (deletePhysicalBook pid' s))) <->
        In c' (tbl_physicalBooks s) /\ pid c' <> pid')).
Proof.
  intros R0. rewrite deletePhysicalBook_run, R0. split; [|split].
  - intros H.
    assert (F : find (eq_Z pid pid') (tbl_physicalBooks s) = None).
    { apply find_none_iff. intros c Hc. specialize (H c Hc).
      unfold eq_Z. lia. }
    rewrite F. split; reflexivity.
  - intros c F B. rewrite F, B. unfold final. simpl.
    split; [reflexivity|]. split; [reflexivity|].
    apply find_some in F. exact (proj1 F).
  - intros c F B R1. rewrite F, B, R1. unfold final. simpl.
    split; [reflexivity|]. intros c'. rewrite filter_In. unfold eq_Z.
    destruct (pid c' =? pid') eqn:E; simpl; split.
    + intros [_ H]. discriminate H.
    + intros [_ H]. lia.
    + intros [H _]. split; [exact H|lia].
    + intros [H _]. split; [exact H|reflexivity].
Qed.

Lemma deletePhysicalBook_guard_witness :
  outcome (deletePhysicalBook 99 shelf) = Thrown NotFoundError /\
  (outcome (deletePhysicalBook 11 shelf) = Thrown InvalidStateError /\
   In copy2 (tbl_physicalBooks (final (deletePhysicalBook 11 shelf)))) /\
  (outcome (deletePhysicalBook 10 shelf) = Returned true /\
   ~ In copy1 (tbl_physicalBooks (final (deletePhysicalBook 10 shelf)))).
Proof.
  split; [|split].
  - apply (proj1 (deletePhysicalBook_guard 99 shelf eq_refl)).
    intros c Hc.
    repeat (destruct Hc as [<-|Hc]; [discriminate|]). destruct Hc.
  - destruct (proj1 (proj2 (deletePhysicalBook_guard 11 shelf eq_refl))
                copy2 eq_refl eq_refl) as (H1 & _ & H3).
    split; assumption.
  - destruct (proj2 (proj2 (deletePhysicalBook_guard 10 shelf eq_refl))
                copy1 eq_refl eq_refl eq_refl) as (H1 & H2).
    split; [exact H1|]. intros Hin. apply H2 in Hin.
    destruct Hin as [_ Hne]. apply Hne. reflexivity.
Defined.

(** ** [updateBooks] *)

Lemma updateBooks_run (id' totalCopies' availableCopies' : Z) (s : Store) :
  updateBooks id' totalCopies' availableCopies' s =
  if rejected 0 s
  then (Returned Null, next_statement s)
  else (Returned
          (first_row
             (map (with_counts totalCopies' availableCopies')
                  (filter (eq_Z id id') (tbl_books s)))),
        with_books
          (map (fun b =>
                  if eq_Z id id' b
                  then with_counts totalCopies' availableCopies' b
                  else b)
               (tbl_books s))
          (next_statement s)).
Proof.
  unfold updateBooks, try_catch, bind, update_books_returning.
  destruct (rejected 0 s) eqn:R0.
  - rewrite (statement_rejected _ _ R0). reflexivity.
  - rewrite (statement_accepted _ _ R0). reflexivity.
Qed.

Lemma Forall2_map_r {A B} (R : A -> B -> Prop) (f : A -> B) (l : list A) :
  (forall x, In x l -> R x (f x)) -> Forall2 R l (map f l).
Proof.
  induction l as [|x l IH]; simpl; intros H; constructor.
  - apply H. left. reflexivity.
  - apply IH. intros y Hy. apply H. right. exact Hy.
Qed.

(** C8. [updateBooks] writes only [totalCopies] and [availableCopies],
    and only in rows of the given id: row by row, [id], [isbn],
    [title], [author], [genre] and [cover] are as before, a row of the
    id holds the two new counts, and a row of another id is untouched;
    it returns the updated row.  When the store rejects the statement
    it returns [null], throws nothing, and the table is unchanged. *)
Theorem updateBooks_frame (id' totalCopies' availableCopies' : Z) (s : Store) :
  (rejected 0 s = false ->
   Forall2
     (fun b b' =>
        id b' = id b /\ isbn b' = isbn b /\ title b' = title b /\
        author b' = author b /\ genre b' = genre b /\ cover b' = cover b /\
        (id b = id' ->
         totalCopies b' = totalCopies' /\
         availableCopies b' = availableCopies') /\
        (id b <> id' -> b' = b))
     (tbl_books s)
     (tbl_books (final (updateBooks id' totalCopies' availableCopies' s))) /\
   tbl_physicalBooks (final (updateBooks id' totalCopies' availableCopies' s)) =
   tbl_physicalBooks s /\
   (forall b,
      find (eq_Z id id') (tbl_books s) = Some b ->
      outcome (updateBooks id' totalCopies' availableCopies' s) =
      Returned (Value (with_counts totalCopies' availableCopies' b)))) /\
  (rejected 0 s = true ->
   outcome (updateBooks id' totalCopies' availableCopies' s) = Returned Null /\
   tbl_books (final (updateBooks id' totalCopies' availableCopies' s)) =
   tbl_books s).
Proof.
  rewrite updateBooks_run. split; intros R0; rewrite R0; unfold final, outcome;
    simpl.
  - split; [|split; [reflexivity|]].
    + apply Forall2_map_r. intros b _. unfold eq_Z.
      destruct (id b =? id') eqn:E; simpl.
      * repeat (split; [reflexivity|]). split; [intros _; split; reflexivity|].
        intros Hne. lia.
      * repeat (split; [reflexivity|]). split; [|reflexivity].
        intros He. lia.
    + intros b F. do 2 f_equal.
      induction (tbl_books s) as [|x l IH]; simpl in *; [discriminate|].
      destruct (eq_Z id id' x).
      * injection F as <-. reflexivity.
      * apply IH. exact F.
  - split; reflexivity.
Qed.

Lemma updateBooks_frame_witness :
  outcome (updateBooks 2 5 4 shelf) =
    Returned
      (Value (mkBook 2 "9780141439587" "Emma" "Jane Austen" "Novel" 5 4
                     "emma.png")) /\
  outcome (updateBooks 2 5 4 (with_faults [true] shelf)) = Returned Null.
Proof.
  split.
  - exact (proj2 (proj2 (proj1 (updateBooks_frame 2 5 4 shelf) eq_refl))
             emma eq_refl).
  - exact (proj1 (proj2 (updateBooks_frame 2 5 4 (with_faults [true] shelf))
                   eq_refl)).
Defined.

(** ** [ORDER BY], [LIMIT] and [OFFSET] *)

Section Ordering.

Context {A : Type}.
Variable le : A -> A -> bool.

Let R (a b : A) : Prop := le a b = true.

Lemma insert_row_perm (x : A) (l : list A) :
  Permutation (x :: l) (insert_row le x l).
Proof.
  induction l as [|y l IH]; simpl; [apply Permutation_refl|].
  destruct (le x y); [apply Permutation_refl|].
  eapply perm_trans; [apply perm_swap|]. apply perm_skip. exact IH.
Qed.

Lemma order_rows_perm (l : list A) : Permutation l (order_rows le l).
Proof.
  induction l as [|x l IH]; simpl; [apply perm_nil|].
  eapply perm_trans; [apply perm_skip; exact IH|]. apply insert_row_perm.
Qed.

Lemma order_rows_length (l : list A) :
  List.length (order_rows le l) = List.length l.
Proof. symmetry. apply Permutation_length, order_rows_perm. Qed.

Lemma order_rows_In (l : list A) (x : A) :
  In x (order_rows le l) <-> In x l.
Proof.
  split; apply Permutation_in;
    [apply Permutation_sym|]; apply order_rows_perm.
Qed.

Hypothesis le_total : forall a b, le a b = true \/ le b a = true.

Lemma insert_row_sorted (x : A) (l : list A) :
  Sorted R l -> Sorted R (insert_row le x l).
Proof.
  induction l as [|y l IH]; simpl; intros S.
  - repeat constructor.
  - destruct (le x y) eqn:E.
    + constructor; [exact S|]. constructor. exact E.
    + apply Sorted_inv in S. destruct S as [S H].
      constructor; [apply IH; exact S|].
      assert (Ryx : R y x).
      { destruct (le_total x y) as [C|C]; [congruence|exact C]. }
      destruct l as [|z l]; simpl.
      * constructor. exact Ryx.
      * destruct (le x z); constructor; [exact Ryx|].
        apply HdRel_inv in H. exact H.
Qed.

Lemma order_rows_sorted (l : list A) : Sorted R (order_rows le l).
Proof.
  induction l as [|x l IH]; simpl; [constructor|].
  apply insert_row_sorted. exact IH.
Qed.

End Ordering.

Lemma Sorted_skipn {A} (R : A -> A -> Prop) (n : nat) (l : list A) :
  Sorted R l -> Sorted R (skipn n l).
Proof.
  revert l. induction n as [|n IH]; intros l S; [exact S|].
  destruct l as [|x l]; [exact S|]. simpl. apply IH.
  apply Sorted_inv in S. exact (proj1 S).
Qed.

Lemma Sorted_firstn {A} (R : A -> A -> Prop) (n : nat) (l : list A) :
  Sorted R l -> Sorted R (firstn n l).
Proof.
  revert n. induction l as [|x l IH]; intros n S.
  - destruct n; constructor.
  - destruct n as [|n]; simpl; [constructor|].
    apply Sorted_inv in S. destruct S as [S H].
    constructor; [apply IH; exact S|].
    destruct l as [|y l]; destruct n; simpl; constructor.
    apply HdRel_inv in H. exact H.
Qed.

Lemma StronglySorted_app_inv {A} (R : A -> A -> Prop) (l1 l2 : list A) :
  StronglySorted R (l1 ++ l2) ->
  forall a b, In a l1 -> In b l2 -> R a b.
Proof.
  induction l1 as [|x l1 IH]; simpl; intros S a b Ha Hb; [destruct Ha|].
  apply StronglySorted_inv in S. destruct S as [S F].
  destruct Ha as [<-|Ha].
  - rewrite Forall_forall in F. apply F. apply in_or_app. right. exact Hb.
  - exact (IH S a b Ha Hb).
Qed.

Lemma col_leb_total (c : Column) (a b : Book) :
  col_leb c a b = true \/ col_leb c b a = true.
Proof.
  destruct c; simpl; try apply String.leb_total;
    match goal with
    | |- (?x <=? ?y) = true \/ _ =>
        destruct (Z.leb_spec x y); [left; reflexivity|right]; apply Z.leb_le; lia
    end.
Qed.

Lemma sort_order_total (sortOrder : string) (c : Column) (a b : Book) :
  sort_order sortOrder c a b = true \/ sort_order sortOrder c b a = true.
Proof.
  unfold sort_order. destruct (sortOrder =? "desc")%string;
    apply col_leb_total.
Qed.

(** ** [fetchLimitedBooks] *)

(** The titles, the greatest [id] first. *)
Lemma fetchLimitedBooks_run (limit' : Z) (s : Store) :
  fetchLimitedBooks limit' s =
  (Returned
     (if rejected 0 s
      then []
      else limited limit'
                   (order_rows (fun a b => id b <=? id a) (tbl_books s))),
   next_statement s).
Proof.
  unfold fetchLimitedBooks, try_catch, bind, select_books.
  destruct (rejected 0 s) eqn:R0.
  - rewrite (statement_rejected _ _ R0). reflexivity.
  - rewrite (statement_accepted _ _ R0). unfold eval_select, dot_limit, limited.
    simpl. destruct (limit' <? 0) eqn:E; simpl; [reflexivity|].
    rewrite E. reflexivity.
Qed.

Lemma id_desc_strongly_sorted (l : list Book) :
  StronglySorted (fun a b => id b <= id a)
                 (order_rows (fun a b => id b <=? id a) l).
Proof.
  apply Sorted_StronglySorted.
  - intros a b c Hab Hbc. lia.
  - eapply Sorted_ind with
      (P := fun l => Sorted (fun a b => id b <= id a) l);
      [constructor| |apply (order_rows_sorted (fun a b => id b <=? id a))].
    + intros a l0 _ IH H. constructor; [exact IH|].
      destruct H; constructor. apply Z.leb_le. assumption.
    + intros a b. destruct (Z.leb_spec (id b) (id a)); [left; reflexivity|].
      right. apply Z.leb_le. lia.
Qed.

Lemma StronglySorted_firstn {A} (R : A -> A -> Prop) (n : nat) (l : list A) :
  StronglySorted R l -> StronglySorted R (firstn n l).
Proof.
  revert n. induction l as [|x l IH]; intros n S.
  - destruct n; constructor.
  - destruct n as [|n]; simpl; [constructor|].
    apply StronglySorted_inv in S. destruct S as [S F].
    constructor; [apply IH; exact S|].
    rewrite Forall_forall in *. intros y Hy. apply F.
    rewrite <- (firstn_skipn n l). apply in_or_app. left. exact Hy.
Qed.

(** C7. [fetchLimitedBooks] never throws: when the store rejects the
    query it returns the empty list.  When the query is accepted, the
    rows of [books] put in descending order of [id] are the titles it
    returns followed by the titles it leaves out: each title is
    returned at most as often as the table holds it, and none left out
    has a greater [id] than one returned.  For a limit [limit' >= 0]
    it returns [limit'] titles, or all of them when the table holds
    fewer; a negative limit sets no bound and nothing is left out. *)
Theorem fetchLimitedBooks_recent (limit' : Z) (s : Store) :
  exists l,
    outcome (fetchLimitedBooks limit' s) = Returned l /\
    (rejected 0 s = true -> l = []) /\
    (rejected 0 s = false ->
     exists rest,
       Permutation (tbl_books s) (l ++ rest) /\
       StronglySorted (fun a b => id b <= id a) (l ++ rest) /\
       (0 <= limit' ->
        List.length l =
        Nat.min (Z.to_nat limit') (List.length (tbl_books s))) /\
       (limit' < 0 -> rest = [])).
Proof.
  rewrite fetchLimitedBooks_run. unfold outcome. cbn [fst].
  eexists. split; [reflexivity|].
  destruct (rejected 0 s); [split; [reflexivity|discriminate]|].
  split; [discriminate|]. intros _.
  set (L := order_rows (fun a b => id b <=? id a) (tbl_books s)).
  pose proof (id_desc_strongly_sorted (tbl_books s)) as SS. fold L in SS.
  pose proof (order_rows_perm (fun a b => id b <=? id a) (tbl_books s)) as P.
  fold L in P. unfold limited.
  destruct (Z.ltb_spec limit' 0) as [Hneg|Hpos].
  - exists []. rewrite app_nil_r. split; [exact P|]. split; [exact SS|].
    split; [lia|reflexivity].
  - exists (skipn (Z.to_nat limit') L). rewrite firstn_skipn.
    split; [exact P|]. split; [exact SS|]. split; [|lia].
    intros _. rewrite length_firstn. unfold L.
    rewrite order_rows_length. reflexivity.
Qed.

Lemma fetchLimitedBooks_recent_witness :
  outcome (fetchLimitedBooks 2 shelf) = Returned [ulysses; emma] /\
  outcome (fetchLimitedBooks 2 (with_faults [true] shelf)) = Returned [].
Proof.
  split.
  - destruct (fetchLimitedBooks_recent 2 shelf) as (l & H & _).
    rewrite H. symmetry. exact H.
  - destruct (fetchLimitedBooks_recent 2 (with_faults [true] shelf))
      as (l & H & E & _).
    rewrite H. rewrite (E eq_refl). reflexivity.
Defined.

(** ** [createBooks] *)

Lemma createBooks_run
  (isbn' title' author' genre' : string) (totalCopies' availableCopies' : Z)
  (cover' : string) (s : Store) :
  createBooks isbn' title' author' genre' totalCopies' availableCopies' cover' s =
  if rejected 0 s
  then (Thrown StoreError, next_statement s)
  else (Returned (mkQueryResult "INSERT" 1 []),
        with_next_id (next_id s + 1)
          (with_books
             (tbl_books s ++
              [mkBook (next_id s) isbn' title' author' genre' totalCopies'
                      availableCopies' cover'])
             (next_statement s))).
Proof.
  unfold createBooks, try_catch, bind, insert_books.
  destruct (rejected 0 s) eqn:R0.
  - rewrite (statement_rejected _ _ R0). reflexivity.
  - rewrite (statement_accepted _ _ R0). reflexivity.
Qed.

Lemma find_fresh_id (n : Z) (l : list Book) (b : Book) :
  (forall x, In x l -> id x < n) -> id b = n ->
  find (eq_Z id n) (l ++ [b]) = Some b.
Proof.
  intros Hl Hb. induction l as [|x l IH]; simpl.
  - unfold eq_Z. rewrite Hb, Z.eqb_refl. reflexivity.
  - assert (E : eq_Z id n x = false).
    { unfold eq_Z. specialize (Hl x (or_introl eq_refl)). lia. }
    rewrite E. apply IH. intros y Hy. apply Hl. right. exact Hy.
Qed.

(** C3, as the code has it.  [createBooks] inserts one row into [books]
    that holds the given values under the next serial [id], and returns
    the driver's result of the insert, which carries no row.
    [fetchBookById] on that [id] then yields the record with exactly
    the inserted [isbn], [title], [author], [genre], [totalCopies],
    [availableCopies] and [cover]. *)
Theorem createBooks_then_fetch
  (isbn' title' author' genre' : string) (totalCopies' availableCopies' : Z)
  (cover' : string) (s : Store) :
  ids_fresh s -> rejected 0 s = false -> rejected 1 s = false ->
  let r :=
    createBooks isbn' title' author' genre' totalCopies' availableCopies'
                cover' s in
  let created :=
    mkBook (next_id s) isbn' title' author' genre' totalCopies'
           availableCopies' cover' in
  outcome r = Returned (mkQueryResult "INSERT" 1 []) /\
  (forall res, outcome r = Returned res -> returned_title res = None) /\
  tbl_books (final r) = tbl_books s ++ [created] /\
  tbl_physicalBooks (final r) = tbl_physicalBooks s /\
  outcome (fetchBookById (next_id s) (final r)) = Returned (Value created).
Proof.
  intros Hfresh R0 R1 r created. subst r.
  rewrite createBooks_run, R0. unfold outcome, final.
  cbn [fst snd].
  split; [reflexivity|]. split; [intros res [= <-]; reflexivity|].
  split; [reflexivity|]. split; [reflexivity|].
  rewrite fetchBookById_run.
  match goal with
  | |- context [rejected 0 ?s'] =>
      replace (rejected 0 s') with (rejected 1 s)
        by (rewrite <- rejected_next; reflexivity)
  end.
  rewrite R1. cbn [fst tbl_books with_next_id with_books next_statement
                    with_faults].
  fold created.
  rewrite (find_fresh_id (next_id s) (tbl_books s) created Hfresh eq_refl).
  reflexivity.
Qed.

Lemma createBooks_then_fetch_witness :
  outcome
    (fetchBookById 4
       (final (createBooks "9780156027601" "Solaris" "Stanislaw Lem" "SciFi"
                           2 2 "s.png" shelf))) =
  Returned
    (Value (mkBook 4 "9780156027601" "Solaris" "Stanislaw Lem" "SciFi" 2 2
                   "s.png")).
Proof.
  refine (proj2 (proj2 (proj2 (proj2
            (createBooks_then_fetch "9780156027601" "Solaris" "Stanislaw Lem"
               "SciFi" 2 2 "s.png" shelf _ eq_refl eq_refl))))).
  intros b Hb. simpl in Hb.
  repeat (destruct Hb as [<-|Hb]; [reflexivity|]). destruct Hb.
Defined.

(** C3, as the specification words it, fails: the value [createBooks] returns
    carries no title, hence no [id] to look up. *)
Lemma createBooks_returns_no_title : ~ returns_created_title solaris shelf.
Proof.
  intros (res & t & b & Hres & Ht & _).
  vm_compute in Hres. injection Hres as <-. discriminate Ht.
Qed.

(** ** [readBooks] *)

Lemma select_books_run (q : Select Book) (s : Store) :
  select_books q s =
  (if rejected 0 s then Thrown StoreError
   else match eval_select q (tbl_books s) with
        | Some rows => Returned rows
        | None => Thrown StoreError
        end,
   next_statement s).
Proof.
  unfold select_books. destruct (rejected 0 s) eqn:R0.
  - apply statement_rejected. exact R0.
  - rewrite (statement_accepted _ _ R0), tbl_books_next.
    destruct (eval_select q (tbl_books s)); reflexivity.
Qed.

Lemma count_books_run (w : option (Book -> bool)) (s : Store) :
  count_books w s =
  (if rejected 0 s then Thrown StoreError
   else Returned (Z.of_nat (List.length (apply_where w (tbl_books s)))),
   next_statement s).
Proof.
  unfold count_books. destruct (rejected 0 s) eqn:R0.
  - apply statement_rejected. exact R0.
  - rewrite (statement_accepted _ _ R0). reflexivity.
Qed.

(** A select with an order, an offset and the limit of [.limit(n)]. *)
Lemma eval_select_page {A} (w : option (A -> bool)) (le : A -> A -> bool)
  (n o : Z) (rows : list A) :
  eval_select (mkSelect w (Some (Some le)) (dot_limit n) (Some o)) rows =
  if o <? 0 then None
  else Some (limited n (skipn (Z.to_nat o) (order_rows le (apply_where w rows)))).
Proof.
  unfold eval_select, dot_limit, limited. cbn [where_ orderBy limit offset].
  destruct (o <? 0); [reflexivity|].
  destruct (n <? 0) eqn:E; [reflexivity|]. rewrite E. reflexivity.
Qed.

Lemma limited_nonneg {A} (n : Z) (l : list A) :
  0 <= n -> limited n l = firstn (Z.to_nat n) l.
Proof.
  intros H. unfold limited.
  destruct (Z.ltb_spec n 0); [lia|reflexivity].
Qed.

Lemma readBooks_run
  (page pageSize : Z) (sortField sortOrder searchQuery : string) (s : Store) :
  outcome (readBooks page pageSize sortField sortOrder searchQuery s) =
  if rejected 0 s || rejected 1 s then Thrown StoreError
  else
    match clause_order sortOrder (books_property sortField) with
    | None => Thrown StoreError
    | Some le =>
        if (page - 1) * pageSize <? 0
        then Thrown StoreError
        else
          let total := Z.of_nat (List.length (matching searchQuery s)) in
          Returned
            (mkBooksPage
               (limited pageSize
                  (skipn (Z.to_nat ((page - 1) * pageSize))
                         (order_rows le (matching searchQuery s))))
               total (math_ceil_div total pageSize))
    end.
Proof.
  unfold readBooks, bind, promise_all2, outcome, matching. cbv zeta.
  fold (search_clause searchQuery).
  fold (clause_order sortOrder (books_property sortField)).
  rewrite select_books_run, count_books_run, rejected_next, tbl_books_next.
  destruct (rejected 0 s); [destruct (rejected 1 s); reflexivity|].
  cbn [orb].
  destruct (clause_order sortOrder (books_property sortField)) as [le|].
  - unfold OrderBy. rewrite eval_select_page.
    destruct (rejected 1 s);
      destruct ((page - 1) * pageSize <? 0); reflexivity.
  - destruct (rejected 1 s); reflexivity.
Qed.

Lemma books_property_column (sortField : string) (c : Column) :
  books_column sortField = Some c -> books_property sortField = a_column c.
Proof. unfold books_property. intros ->. reflexivity. Qed.

Lemma clause_order_column (sortOrder : string) (c : Column) :
  clause_order sortOrder (a_column c) = Some (sort_order sortOrder c).
Proof.
  unfold clause_order, sort_order.
  destruct (sortOrder =? "desc")%string; reflexivity.
Qed.

Lemma readBooks_returns
  (page pageSize : Z) (sortField sortOrder searchQuery : string) (c : Column)
  (s : Store) :
  1 <= page -> 1 <= pageSize -> books_column sortField = Some c ->
  rejected 0 s = false -> rejected 1 s = false ->
  outcome (readBooks page pageSize sortField sortOrder searchQuery s) =
  let total :=
    Z.of_nat
      (List.length (apply_where (search_clause searchQuery) (tbl_books s))) in
  Returned
    (mkBooksPage
       (page_slice page pageSize (listing c sortOrder searchQuery s))
       total (math_ceil_div total pageSize)).
Proof.
  intros Hp Hs Hc R0 R1. rewrite readBooks_run, R0, R1.
  rewrite (books_property_column sortField c Hc), clause_order_column.
  cbn [orb].
  assert (E1 : ((page - 1) * pageSize <? 0) = false) by (apply Z.ltb_ge; nia).
  rewrite E1, limited_nonneg by lia. reflexivity.
Qed.


Lemma math_ceil_div_pos (count pageSize : Z) :
  1 <= pageSize ->
  exists k,
    math_ceil_div count pageSize = Num k /\
    (k - 1) * pageSize < count <= k * pageSize.
Proof.
  intros Hp. unfold math_ceil_div.
  assert (E : (pageSize =? 0) = false) by (apply Z.eqb_neq; lia).
  rewrite E. eexists. split; [reflexivity|].
  pose proof (Z.div_mod (- count) pageSize ltac:(lia)) as D.
  pose proof (Z.mod_pos_bound (- count) pageSize ltac:(lia)) as B.
  nia.
Qed.

Lemma listing_sorted (c : Column) (sortOrder searchQuery : string) (s : Store) :
  Sorted (fun a b => sort_order sortOrder c a b = true)
         (listing c sortOrder searchQuery s).
Proof. apply order_rows_sorted, sort_order_total. Qed.

Lemma listing_perm (c : Column) (sortOrder searchQuery : string) (s : Store) :
  Permutation (apply_where (search_clause searchQuery) (tbl_books s))
              (listing c sortOrder searchQuery s).
Proof. apply order_rows_perm. Qed.

Lemma sort_order_asc (sortOrder : string) (c : Column) :
  sortOrder <> "desc" -> sort_order sortOrder c = fun a b => col_leb c a b.
Proof.
  intros H. unfold sort_order.
  destruct (String.eqb_spec sortOrder "desc"); [contradiction|reflexivity].
Qed.

Lemma Sorted_weaken {A} (R R' : A -> A -> Prop) (l : list A) :
  (forall a b, R a b -> R' a b) -> Sorted R l -> Sorted R' l.
Proof.
  intros H S. induction S as [|a l S IH Hd]; constructor; [exact IH|].
  destruct Hd; constructor. apply H. assumption.
Qed.

(** The column a name of [column_names] stands for. *)
Lemma column_of_name (sortField : string) :
  In sortField column_names ->
  exists c,
    books_column sortField = Some c /\
    forall a b, col_leb c a b = true <-> ascends_on sortField a b.
Proof.
  intros H. unfold column_names in H.
  repeat (destruct H as [<-|H];
          [eexists; split; [reflexivity|];
           intros a b; unfold ascends_on, col_leb; try rewrite Z.leb_le;
           split;
           [intros Hle; repeat split; intros E;
            first [discriminate E|exact Hle]
           |intros Hasc; decompose [and] Hasc; auto]|]).
  destruct H.
Qed.

(** C4. For [page >= 1], [pageSize >= 1] and [sortField] the name of a
    column, [readBooks] returns a page of the matching rows put in
    order: with [L] the order in which the store lists them, the page
    is made of the rows of [L] from offset [(page - 1) * pageSize] on,
    at most [pageSize] of them.  With any [sortOrder] other than "desc"
    the rows of [L] ascend on the column [sortField] names; with "desc"
    they descend.  [totalBooks] counts the matching rows and
    [totalPages] is the least [k] with [totalBooks <= k * pageSize]. *)
Theorem readBooks_pagination
  (page pageSize : Z) (sortField sortOrder searchQuery : string) (s : Store) :
  1 <= page -> 1 <= pageSize -> In sortField column_names ->
  rejected 0 s = false -> rejected 1 s = false ->
  exists r k L,
    outcome (readBooks page pageSize sortField sortOrder searchQuery s) =
    Returned r /\
    Permutation (matching searchQuery s) L /\
    (sortOrder <> "desc"%string -> Sorted (ascends_on sortField) L) /\
    (sortOrder = "desc"%string ->
     Sorted (fun a b => ascends_on sortField b a) L) /\
    books r =
    firstn (Z.to_nat pageSize) (skipn (Z.to_nat ((page - 1) * pageSize)) L) /\
    totalBooks r = Z.of_nat (List.length (matching searchQuery s)) /\
    totalPages r = Num k /\
    (k - 1) * pageSize < totalBooks r <= k * pageSize.
Proof.
  intros Hp Hs Hname R0 R1.
  destruct (column_of_name sortField Hname) as (c & Hc & Hle).
  pose proof (readBooks_returns page pageSize sortField sortOrder searchQuery
                c s Hp Hs Hc R0 R1) as Hrun.
  cbv zeta in Hrun.
  destruct (math_ceil_div_pos (Z.of_nat (List.length (matching searchQuery s)))
              pageSize Hs) as (k & Hk & Hbound).
  eexists. exists k, (listing c sortOrder searchQuery s).
  split; [exact Hrun|]. cbn [books totalBooks totalPages].
  pose proof (listing_sorted c sortOrder searchQuery s) as HS.
  split; [apply listing_perm|]. split; [|split].
  - intros Hasc. rewrite (sort_order_asc sortOrder c Hasc) in HS.
    apply (Sorted_weaken _ _ _ (fun a b => proj1 (Hle a b)) HS).
  - intros ->. unfold sort_order in HS. simpl in HS.
    apply (Sorted_weaken _ _ _ (fun a b => proj1 (Hle b a)) HS).
  - split; [reflexivity|]. split; [reflexivity|].
    split; [exact Hk|exact Hbound].
Qed.

Lemma readBooks_pagination_witness :
  exists r,
    outcome (readBooks 1 2 "author" "upwards" EmptyString shelf) = Returned r /\
    books r = [dune; ulysses] /\ totalBooks r = 3 /\ totalPages r = Num 2.
Proof.
  destruct (readBooks_pagination 1 2 "author" "upwards" EmptyString shelf)
    as (r & k & L & H & _ & _ & _ & _ & Ht & Hk & Hbound);
    [lia|lia|right; right; right; left; reflexivity|reflexivity|reflexivity|].
  exists r. rewrite Ht in Hbound. rewrite Hk.
  change (Z.of_nat (List.length (matching EmptyString shelf))) with 3
    in Hbound, Ht.
  split; [exact H|]. split; [|split; [exact Ht|f_equal; lia]].
  vm_compute in H. injection H as <-. reflexivity.
Defined.

(** ** Paging through the whole listing *)

Lemma firstn_add {A} (n m : nat) (l : list A) :
  firstn (n + m) l = firstn n l ++ firstn m (skipn n l).
Proof.
  revert l. induction n as [|n IH]; intros l; [reflexivity|].
  destruct l as [|x l]; simpl.
  - destruct m; reflexivity.
  - f_equal. apply IH.
Qed.

Lemma pages_firstn {A} (p k : nat) (l : list A) :
  flat_map (fun i => firstn p (skipn (i * p) l)) (seq 0 k) =
  firstn (k * p) l.
Proof.
  induction k as [|k IH]; [reflexivity|].
  rewrite seq_S, flat_map_app, IH. simpl flat_map. rewrite app_nil_r.
  replace (S k * p)%nat with (k * p + p)%nat by lia.
  symmetry. apply firstn_add.
Qed.

Lemma NoDup_map_filter {A B} (f : A -> B) (w : A -> bool) (l : list A) :
  NoDup (map f l) -> NoDup (map f (filter w l)).
Proof.
  induction l as [|x l IH]; simpl; intros H; [exact H|].
  inversion H as [|y l' Hnin Hnd]; subst.
  destruct (w x); simpl; [|apply IH; exact Hnd].
  constructor; [|apply IH; exact Hnd].
  intros Hin. apply Hnin. rewrite in_map_iff in *.
  destruct Hin as (z & Hz & Hin). exists z. split; [exact Hz|].
  apply filter_In in Hin. exact (proj1 Hin).
Qed.

(** The order of texts is transitive. *)
Lemma string_leb_iff (a b : string) :
  String.leb a b = true <-> OrderedTypeEx.String_as_OT.lt a b \/ a = b.
Proof.
  unfold String.leb.
  pose proof (OrderedTypeEx.String_as_OT.cmp_lt a b) as Hlt.
  pose proof (OrderedTypeEx.String_as_OT.cmp_eq a b) as Heq.
  pose proof (OrderedTypeEx.String_as_OT.cmp_antisym a b) as Hanti.
  unfold OrderedTypeEx.String_as_OT.cmp in *.
  destruct (String.compare a b) eqn:E.
  - split; [intros _; right; apply Heq; reflexivity|reflexivity].
  - split; [intros _; left; apply Hlt; reflexivity|reflexivity].
  - split; [discriminate|]. intros [H|H].
    + apply Hlt in H. discriminate H.
    + apply Heq in H. discriminate H.
Qed.

Lemma string_leb_trans (a b c : string) :
  String.leb a b = true -> String.leb b c = true -> String.leb a c = true.
Proof.
  rewrite !string_leb_iff. intros [H1| ->] [H2| ->].
  - left. exact (OrderedTypeEx.String_as_OT.lt_trans _ _ _ H1 H2).
  - left. exact H1.
  - left. exact H2.
  - right. reflexivity.
Qed.

Lemma col_leb_trans (c : Column) (x y z : Book) :
  col_leb c x y = true -> col_leb c y z = true -> col_leb c x z = true.
Proof.
  destruct c; simpl; try apply string_leb_trans;
    rewrite !Z.leb_le; lia.
Qed.

Lemma sort_order_trans (sortOrder : string) (c : Column) (x y z : Book) :
  sort_order sortOrder c x y = true -> sort_order sortOrder c y z = true ->
  sort_order sortOrder c x z = true.
Proof.
  unfold sort_order. destruct (sortOrder =? "desc")%string.
  - intros H1 H2. exact (col_leb_trans c z y x H2 H1).
  - apply col_leb_trans.
Qed.

Lemma sort_order_ties (sortOrder : string) (c : Column) (a b : Book) :
  sort_order sortOrder c a b = true -> sort_order sortOrder c b a = true ->
  col_leb c a b = true /\ col_leb c b a = true.
Proof.
  unfold sort_order. destruct (sortOrder =? "desc")%string;
    intros H1 H2; split; assumption.
Qed.

(** Rows that never tie have one sorted arrangement only. *)
Lemma sorted_perm_unique {A} (R : A -> A -> Prop) (l1 l2 : list A) :
  (forall a b, In a l1 -> In b l1 -> R a b -> R b a -> a = b) ->
  Permutation l1 l2 -> StronglySorted R l1 -> StronglySorted R l2 ->
  l1 = l2.
Proof.
  revert l2. induction l1 as [|a l1 IH]; intros l2 Hanti P S1 S2.
  - apply Permutation_nil in P. subst. reflexivity.
  - destruct l2 as [|b l2];
      [apply Permutation_sym, Permutation_nil in P; discriminate P|].
    apply StronglySorted_inv in S1. destruct S1 as [S1 F1].
    apply StronglySorted_inv in S2. destruct S2 as [S2 F2].
    rewrite Forall_forall in F1, F2.
    assert (E : a = b).
    { assert (Hb : In b (a :: l1)).
      { apply (Permutation_in b (Permutation_sym P)). left. reflexivity. }
      assert (Ha : In a (b :: l2)).
      { apply (Permutation_in a P). left. reflexivity. }
      destruct Hb as [Hb|Hb]; [exact Hb|].
      destruct Ha as [Ha|Ha]; [symmetry; exact Ha|].
      apply Hanti; [left; reflexivity|right; exact Hb|apply F1; exact Hb
                   |apply F2; exact Ha]. }
    subst b. f_equal. apply IH; [|exact (Permutation_cons_inv P)|exact S1
                                |exact S2].
    intros x y Hx Hy. apply Hanti; right; assumption.
Qed.

Lemma filter_perm {A} (w : A -> bool) (l l' : list A) :
  Permutation l l' -> Permutation (filter w l) (filter w l').
Proof.
  intros P. induction P as [|x l l' P IH|x y l|l l' l'' P1 IH1 P2 IH2]; simpl.
  - constructor.
  - destruct (w x); [constructor|]; exact IH.
  - destruct (w x), (w y); try apply Permutation_refl.
    apply perm_swap.
  - exact (perm_trans IH1 IH2).
Qed.

Lemma matching_perm (searchQuery : string) (s s' : Store) :
  Permutation (tbl_books s) (tbl_books s') ->
  Permutation (matching searchQuery s) (matching searchQuery s').
Proof.
  intros P. unfold matching, apply_where.
  destruct (search_clause searchQuery); [apply filter_perm|]; exact P.
Qed.

(** With no tie among the matching rows, the listing is the same
    whatever the order in which the store scans the table. *)
Lemma listing_rearranged
  (sortField sortOrder searchQuery : string) (c : Column) (s s' : Store) :
  (forall a b, col_leb c a b = true <-> ascends_on sortField a b) ->
  no_ties sortField (matching searchQuery s) ->
  Permutation (tbl_books s) (tbl_books s') ->
  listing c sortOrder searchQuery s' = listing c sortOrder searchQuery s.
Proof.
  intros Hle [_ Hties] P. symmetry.
  apply (sorted_perm_unique (fun a b => sort_order sortOrder c a b = true)).
  - intros a b Ha Hb Hab Hba.
    apply order_rows_In in Ha. apply order_rows_In in Hb.
    destruct (sort_order_ties sortOrder c a b Hab Hba) as [H1 H2].
    apply (Hties a b Ha Hb). split; apply Hle; assumption.
  - eapply perm_trans; [apply Permutation_sym, listing_perm|].
    eapply perm_trans; [apply (matching_perm searchQuery s s' P)|].
    apply listing_perm.
  - apply Sorted_StronglySorted; [|apply listing_sorted].
    intros x y z. apply sort_order_trans.
  - apply Sorted_StronglySorted; [|apply listing_sorted].
    intros x y z. apply sort_order_trans.
Qed.

Lemma pages_concat_listing
  (pageSize : Z) (sortField sortOrder searchQuery : string) (c : Column)
  (s : Store) (scan : Z -> Store) (k : nat) :
  1 <= pageSize -> books_column sortField = Some c ->
  (forall a b, col_leb c a b = true <-> ascends_on sortField a b) ->
  scans_of s scan -> no_ties sortField (matching searchQuery s) ->
  pages_concat pageSize sortField sortOrder searchQuery scan k =
  firstn (k * Z.to_nat pageSize) (listing c sortOrder searchQuery s).
Proof.
  intros Hs Hc Hle Hscan Hties. unfold pages_concat.
  rewrite <- pages_firstn, <- seq_shift, map_map, flat_map_concat_map, map_map.
  rewrite <- flat_map_concat_map. apply flat_map_ext. intros i.
  unfold page_items.
  destruct (Hscan (Z.of_nat (S i))) as (P & R0 & R1).
  rewrite (readBooks_returns (Z.of_nat (S i)) pageSize sortField sortOrder
             searchQuery c (scan (Z.of_nat (S i))) ltac:(lia) Hs Hc R0 R1).
  cbv zeta. cbn [books].
  rewrite (listing_rearranged sortField sortOrder searchQuery c s _ Hle Hties P).
  unfold page_slice. do 2 f_equal. nia.
Qed.

(** C9, as the code has it.  One store state, read page by page, the
    store free to scan its rows in another order for every page; the
    sort and the search fixed, [sortField] the name of a column and
    [pageSize >= 1].  When no two matching rows tie on the column, the
    pages 1 to [totalPages] of [readBooks] one after the other hold
    [totalBooks] rows, the matching rows each once.  When between 1 and
    [pageSize] rows match, ties or not, page 1 holds them all and
    [totalPages] is 1; when none matches, [totalPages] is 0. *)
Theorem readBooks_pages_cover
  (pageSize : Z) (sortField sortOrder searchQuery : string) (s : Store)
  (scan : Z -> Store) :
  1 <= pageSize -> In sortField column_names -> scans_of s scan ->
  exists r1 k,
    outcome (readBooks 1 pageSize sortField sortOrder searchQuery (scan 1)) =
    Returned r1 /\
    totalPages r1 = Num (Z.of_nat k) /\
    totalBooks r1 = Z.of_nat (List.length (matching searchQuery s)) /\
    (no_ties sortField (matching searchQuery s) ->
     Z.of_nat
       (List.length
          (pages_concat pageSize sortField sortOrder searchQuery scan k)) =
     totalBooks r1 /\
     Permutation
       (matching searchQuery s)
       (pages_concat pageSize sortField sortOrder searchQuery scan k) /\
     NoDup (pages_concat pageSize sortField sortOrder searchQuery scan k)) /\
    (1 <= totalBooks r1 <= pageSize ->
     Permutation (matching searchQuery s) (books r1) /\
     totalPages r1 = Num 1) /\
    (totalBooks r1 = 0 -> books r1 = [] /\ totalPages r1 = Num 0).
Proof.
  intros Hs Hname Hscan.
  destruct (column_of_name sortField Hname) as (c & Hc & Hle).
  destruct (Hscan 1) as (P1 & R0 & R1).
  pose proof (readBooks_returns 1 pageSize sortField sortOrder searchQuery
                c (scan 1) ltac:(lia) Hs Hc R0 R1) as Hrun.
  cbv zeta in Hrun.
  fold (matching searchQuery (scan 1)) in Hrun.
  set (M := matching searchQuery s).
  set (L1 := listing c sortOrder searchQuery (scan 1)) in *.
  assert (HM : List.length (matching searchQuery (scan 1)) = List.length M).
  { symmetry. apply Permutation_length, matching_perm. exact P1. }
  rewrite HM in Hrun.
  assert (PL1 : Permutation M L1).
  { eapply perm_trans; [apply (matching_perm searchQuery s (scan 1) P1)|].
    apply listing_perm. }
  assert (HL1 : List.length L1 = List.length M).
  { symmetry. apply Permutation_length. exact PL1. }
  destruct (math_ceil_div_pos (Z.of_nat (List.length M)) pageSize Hs)
    as (k & Hk & Hbound).
  assert (Hk0 : 0 <= k) by nia.
  eexists. exists (Z.to_nat k). split; [exact Hrun|].
  cbn [books totalBooks totalPages].
  rewrite Z2Nat.id by exact Hk0. split; [exact Hk|]. split; [reflexivity|].
  split; [|split].
  - intros Hties.
    rewrite (pages_concat_listing pageSize sortField sortOrder searchQuery c s
               scan (Z.to_nat k) Hs Hc Hle Hscan Hties).
    assert (HL : List.length (listing c sortOrder searchQuery s) =
                 List.length M) by apply order_rows_length.
    rewrite firstn_all2 by (rewrite HL; nia).
    split; [rewrite HL; reflexivity|].
    split; [apply listing_perm|].
    apply (Permutation_NoDup (l := M)); [apply listing_perm|].
    exact (proj1 Hties).
  - intros Hone. split; [|rewrite Hk; f_equal; nia].
    unfold page_slice. replace ((1 - 1) * pageSize) with 0 by lia.
    simpl skipn. rewrite firstn_all2 by (rewrite HL1; lia). exact PL1.
  - intros Hzero. split; [|rewrite Hk; f_equal; nia].
    unfold page_slice. replace ((1 - 1) * pageSize) with 0 by lia.
    simpl skipn. destruct L1; [destruct (Z.to_nat pageSize); reflexivity|].
    simpl in HL1. lia.
Qed.

Lemma shelf_titles_no_ties : no_ties "title" (matching EmptyString shelf).
Proof.
  split.
  - repeat constructor; simpl; intuition discriminate.
  - intros a b Ha Hb [(_ & _ & Hab & _) (_ & _ & Hba & _)].
    specialize (Hab eq_refl). specialize (Hba eq_refl).
    simpl in Ha, Hb.
    repeat (destruct Ha as [<-|Ha]);
      repeat (destruct Hb as [<-|Hb]);
      first [reflexivity|discriminate Hab|discriminate Hba|contradiction].
Qed.

Lemma readBooks_pages_cover_witness :
  NoDup (pages_concat 2 "title" "asc" EmptyString (fun _ => shelf) 2).
Proof.
  destruct (readBooks_pages_cover 2 "title" "asc" EmptyString shelf
              (fun _ => shelf))
    as (r1 & k & H & Hk & _ & Hcover & _).
  - lia.
  - right. right. left. reflexivity.
  - intros p. split; [apply Permutation_refl|split; reflexivity].
  - destruct (Hcover shelf_titles_no_ties) as (_ & _ & Hnd).
    vm_compute in H. injection H as <-. cbn [totalPages] in Hk.
    injection Hk as Hk. replace k with 2%nat in Hnd by lia. exact Hnd.
Defined.

(** C9, as the specification words it, fails twice over.  With no title
    to list there are ten or fewer titles, yet [totalPages] is 0.  And
    with two titles of one genre, listed by genre one to a page, the
    store may put either first at every read: the same title then comes
    on page 1 and on page 2, and the other on no page. *)
Lemma readBooks_pages_cover_fails :
  ~ single_page no_titles /\
  scans_of shelf tie_scans /\
  ~ pages_cover 1 "genre" "asc" EmptyString tie_scans.
Proof.
  split; [|split].
  - intros H.
    destruct (H (mkBooksPage [] 0 (Num 0)) eq_refl) as [_ Hp];
      [simpl; lia|discriminate Hp].
  - intros p. unfold tie_scans. destruct (p =? 2).
    + split; [|split; reflexivity]. simpl.
      apply perm_skip. apply perm_swap.
    + split; [apply Permutation_refl|split; reflexivity].
  - intros H.
    destruct (H (mkBooksPage [emma] 3 (Num 3)) 3%nat eq_refl eq_refl)
      as [_ Hnd].
    vm_compute in Hnd. inversion Hnd as [|x l Hnin _]; subst.
    apply Hnin. left. reflexivity.
Qed.

(** ** [LIKE] on a pattern [%q%] *)

Lemma any_suffix_ext (f g : string -> bool) :
  (forall t, f t = g t) -> forall s, any_suffix f s = any_suffix g s.
Proof.
  intros H s. induction s as [|c s IH]; simpl.
  - rewrite H. reflexivity.
  - rewrite H, IH. reflexivity.
Qed.

Lemma any_suffix_spec (f : string -> bool) (s : string) :
  any_suffix f s = true <->
  exists pre t, s = (pre ++ t)%string /\ f t = true.
Proof.
  induction s as [|c s IH].
  - simpl. rewrite orb_false_r. split.
    + intros H. exists EmptyString, EmptyString. split; [reflexivity|exact H].
    + intros (pre & t & E & H). destruct pre; [|discriminate E].
      simpl in E. subst t. exact H.
  - change (any_suffix f (String c s))
      with (f (String c s) || any_suffix f s).
    rewrite orb_true_iff, IH. split.
    + intros [H|(pre & t & E & H)].
      * exists EmptyString, (String c s). split; [reflexivity|exact H].
      * exists (String c pre), t. simpl. rewrite E. split; [reflexivity|exact H].
    + intros (pre & t & E & H). destruct pre as [|d pre]; simpl in E.
      * left. rewrite E. exact H.
      * injection E as _ E. right. exists pre, t. split; assumption.
Qed.

Lemma starts_with_spec (q s : string) :
  starts_with q s = true <-> exists post, s = (q ++ post)%string.
Proof.
  revert s. induction q as [|c q IH]; intros s; simpl.
  - split; [intros _; exists s; reflexivity|reflexivity].
  - destruct s as [|d s].
    + split; [discriminate|]. intros (post & E). discriminate E.
    + rewrite andb_true_iff, IH. split.
      * intros [Hc (post & E)]. apply Ascii.eqb_eq in Hc. subst.
        exists post. reflexivity.
      * intros (post & E). injection E as -> E. split.
        -- apply Ascii.eqb_refl.
        -- exists post. exact E.
Qed.

(** [containsb] is substring containment. *)
Lemma containsb_spec (q s : string) :
  containsb q s = true <->
  exists pre post, s = (pre ++ q ++ post)%string.
Proof.
  unfold containsb. rewrite any_suffix_spec. split.
  - intros (pre & t & E & H). apply starts_with_spec in H.
    destruct H as (post & ->). exists pre, post. exact E.
  - intros (pre & post & E). exists pre, (q ++ post)%string.
    split; [exact E|]. apply starts_with_spec. exists post. reflexivity.
Qed.

Lemma like_match_percent (p s : string) :
  like_match (String "%" p) s = any_suffix (like_match p) s.
Proof. reflexivity. Qed.

Lemma like_match_plain_cons (c : ascii) (p s : string) :
  plain_char c = true ->
  like_match (String c p) s =
  match s with
  | EmptyString => false
  | String e s' => (c =? e)%char && like_match p s'
  end.
Proof.
  unfold plain_char. intros H.
  apply andb_true_iff in H. destruct H as [H H3].
  apply andb_true_iff in H. destruct H as [H1 H2].
  apply negb_true_iff in H1, H2, H3.
  cbn [like_match]. rewrite H1, H2, H3. reflexivity.
Qed.

Lemma like_match_any (s : string) : like_match "%" s = true.
Proof.
  rewrite like_match_percent.
  induction s as [|c s IH]; [reflexivity|].
  change (any_suffix (like_match EmptyString) (String c s))
    with (like_match EmptyString (String c s) || any_suffix (like_match EmptyString) s).
  rewrite IH. apply orb_true_r.
Qed.

Lemma like_match_plain_prefix (q s : string) :
  plain q = true -> like_match (q ++ "%") s = starts_with q s.
Proof.
  revert s. induction q as [|c q IH]; intros s H.
  - apply like_match_any.
  - simpl in H. apply andb_true_iff in H. destruct H as [Hc Hq].
    change (String c q ++ "%")%string with (String c (q ++ "%")).
    rewrite (like_match_plain_cons c _ s Hc). simpl.
    destruct s as [|e s]; [reflexivity|]. rewrite (IH s Hq). reflexivity.
Qed.

(** For a query with no [%], no [_] and no backslash, [LIKE] on
    [%query%] is substring containment. *)
Lemma like_match_contains (q s : string) :
  plain q = true -> like_match ("%" ++ q ++ "%") s = containsb q s.
Proof.
  intros H. change ("%" ++ q ++ "%")%string with (String "%" (q ++ "%")).
  rewrite like_match_percent. unfold containsb.
  apply any_suffix_ext. intros t. apply like_match_plain_prefix. exact H.
Qed.

Lemma LOWER_app (a b : string) :
  LOWER (a ++ b) = (LOWER a ++ LOWER b)%string.
Proof. induction a as [|c a IH]; simpl; [|rewrite IH]; reflexivity. Qed.

Lemma plain_char_lower (c : ascii) :
  plain_char c = true -> plain_char (lower_ascii c) = true.
Proof.
  destruct c as [[] [] [] [] [] [] [] []]; vm_compute; intros H;
    first [reflexivity|exact H].
Qed.

Lemma plain_LOWER (q : string) : plain q = true -> plain (LOWER q) = true.
Proof.
  induction q as [|c q IH]; simpl; [reflexivity|]. intros H.
  apply andb_true_iff in H. destruct H as [Hc Hq].
  rewrite (plain_char_lower c Hc), (IH Hq). reflexivity.
Qed.

(** ** The search of [readBooks] *)


Lemma in_page_slice {A} (page pageSize : Z) (l : list A) (x : A) :
  In x (page_slice page pageSize l) -> In x l.
Proof.
  unfold page_slice. intros H.
  rewrite <- (firstn_skipn (Z.to_nat ((page - 1) * pageSize)) l).
  apply in_or_app. right.
  rewrite <- (firstn_skipn (Z.to_nat pageSize)
                (skipn (Z.to_nat ((page - 1) * pageSize)) l)).
  apply in_or_app. left. exact H.
Qed.

Lemma page_slice_nil {A} (page pageSize : Z) :
  page_slice page pageSize (@nil A) = [].
Proof. unfold page_slice. rewrite skipn_nil. apply firstn_nil. Qed.

Lemma limited_firstn {A} (n : Z) (l : list A) :
  exists n', limited n l = firstn n' l.
Proof.
  unfold limited. destruct (n <? 0).
  - exists (List.length l). symmetry. apply firstn_all.
  - exists (Z.to_nat n). reflexivity.
Qed.

Lemma in_firstn_skipn {A} (n m : nat) (l : list A) (x : A) :
  In x (firstn n (skipn m l)) -> In x l.
Proof.
  intros H. rewrite <- (firstn_skipn m l). apply in_or_app. right.
  rewrite <- (firstn_skipn n (skipn m l)). apply in_or_app. left. exact H.
Qed.




(** ** [fetchBooksByQuery] *)

Lemma query_clause_match (query : string) (b : Book) :
  query_clause query b = query_match query b.
Proof.
  unfold query_clause, query_match, or_, lower_like. cbn [existsb].
  rewrite orb_false_r, !orb_assoc. reflexivity.
Qed.

Lemma fetchBooksByQuery_run (query : string) (page pageSize : Z) (s : Store) :
  outcome (fetchBooksByQuery query page pageSize s) =
  Returned
    (if rejected 0 s || rejected 1 s || ((page - 1) * pageSize <? 0)
     then mkSearchPage [] (Num 0) page 0
     else
       let found := filter (query_match query) (tbl_books s) in
       mkSearchPage
         (limited pageSize
            (skipn (Z.to_nat ((page - 1) * pageSize))
                   (order_rows (fun a b => id b <=? id a) found)))
         (math_ceil_div (Z.of_nat (List.length found)) pageSize)
         page (Z.of_nat (List.length found))).
Proof.
  unfold fetchBooksByQuery, try_catch, bind, promise_all2, outcome.
  rewrite !select_books_run, rejected_next, tbl_books_next.
  cbn [desc]. unfold OrderBy. rewrite eval_select_page.
  unfold eval_select. cbn [where_ orderBy limit offset apply_where col_leb].
  rewrite (filter_ext _ _ (query_clause_match query)).
  destruct (rejected 0 s); [destruct (rejected 1 s); reflexivity|].
  destruct (rejected 1 s); cbn [orb];
    destruct ((page - 1) * pageSize <? 0); reflexivity.
Qed.

Lemma page_slice_limited {A} (page pageSize : Z) (l : list A) :
  0 <= pageSize ->
  limited pageSize (skipn (Z.to_nat ((page - 1) * pageSize)) l) =
  page_slice page pageSize l.
Proof. intros H. unfold page_slice. apply limited_nonneg. exact H. Qed.

Lemma StronglySorted_skipn {A} (R : A -> A -> Prop) (n : nat) (l : list A) :
  StronglySorted R l -> StronglySorted R (skipn n l).
Proof.
  revert l. induction n as [|n IH]; intros l S; [exact S|].
  destruct l as [|x l]; [exact S|]. simpl. apply IH.
  apply StronglySorted_inv in S. exact (proj1 S).
Qed.

(** C6, as the code has it.  [fetchBooksByQuery] never throws, and its
    [currentPage] is the page asked for.  When the store rejects one of
    its two statements it returns no book, 0 pages and a count of 0.
    The books it returns are rows of the table whose title, author,
    isbn or genre, in lower case, is [LIKE] the pattern [%query%] in
    lower case, in descending order of [id]; for [page >= 1] and
    [pageSize >= 1] they are that page of the matching rows, and
    [totalBooks] counts the matching rows.  On a query with no [%], no
    [_] and no backslash the pattern is substring containment with
    letters compared in lower case. *)
Theorem fetchBooksByQuery_search
  (query : string) (page pageSize : Z) (s : Store) :
  exists r,
    outcome (fetchBooksByQuery query page pageSize s) = Returned r /\
    q_currentPage r = page /\
    (rejected 0 s = true \/ rejected 1 s = true ->
     r = mkSearchPage [] (Num 0) page 0) /\
    StronglySorted (fun a b => id b <= id a) (q_books r) /\
    (forall b,
       In b (q_books r) -> In b (tbl_books s) /\ query_match query b = true) /\
    (rejected 0 s = false -> rejected 1 s = false ->
     1 <= page -> 1 <= pageSize ->
     q_books r =
     page_slice page pageSize
       (order_rows (fun a b => id b <=? id a)
                   (filter (query_match query) (tbl_books s))) /\
     q_totalBooks r =
     Z.of_nat (List.length (filter (query_match query) (tbl_books s))) /\
     q_totalPages r = math_ceil_div (q_totalBooks r) pageSize) /\
    (plain query = true ->
     forall b,
       query_match query b =
       containsb (LOWER query) (LOWER (title b)) ||
       containsb (LOWER query) (LOWER (author b)) ||
       containsb (LOWER query) (LOWER (isbn b)) ||
       containsb (LOWER query) (LOWER (genre b))).
Proof.
  rewrite fetchBooksByQuery_run. eexists. split; [reflexivity|].
  assert (Hplain :
    plain query = true ->
    forall b,
      query_match query b =
      containsb (LOWER query) (LOWER (title b)) ||
      containsb (LOWER query) (LOWER (author b)) ||
      containsb (LOWER query) (LOWER (isbn b)) ||
      containsb (LOWER query) (LOWER (genre b))).
  { intros Hp b. unfold query_match. rewrite !LOWER_app.
    change (LOWER "%") with "%"%string.
    rewrite !(like_match_contains (LOWER query) _ (plain_LOWER query Hp)).
    reflexivity. }
  destruct (rejected 0 s); [|destruct (rejected 1 s)]; cbn [orb];
    try (cbn [q_books q_currentPage];
         split; [reflexivity|]; split; [reflexivity|];
         split; [constructor|]; split; [intros b []|];
         split; [discriminate|exact Hplain]).
  destruct (Z.ltb_spec ((page - 1) * pageSize) 0) as [Ho|Ho]; cbv zeta;
    cbn [q_books q_currentPage q_totalBooks q_totalPages];
    (split; [reflexivity|]); (split; [intros [H|H]; discriminate H|]).
  - split; [constructor|]. split; [intros b []|].
    split; [|exact Hplain]. intros _ _ Hp Hsz. nia.
  - destruct (limited_firstn pageSize
                (skipn (Z.to_nat ((page - 1) * pageSize))
                   (order_rows (fun a b => id b <=? id a)
                      (filter (query_match query) (tbl_books s)))))
      as (n & Hn).
    split; [|split; [|split; [|exact Hplain]]].
    + rewrite Hn.
      apply StronglySorted_firstn, StronglySorted_skipn,
            id_desc_strongly_sorted.
    + intros b Hb. rewrite Hn in Hb. apply in_firstn_skipn in Hb.
      apply order_rows_In in Hb. apply filter_In in Hb. exact Hb.
    + intros _ _ _ Hsz. rewrite page_slice_limited by lia. repeat split.
Qed.

Lemma fetchBooksByQuery_search_witness :
  exists r,
    outcome (fetchBooksByQuery "JAMES" 1 10 (with_faults [false; true] shelf)) =
    Returned r /\
    r = mkSearchPage [] (Num 0) 1 0.
Proof.
  destruct (fetchBooksByQuery_search "JAMES" 1 10
              (with_faults [false; true] shelf)) as (r & Hr & _ & Hfail & _).
  exists r. split; [exact Hr|]. apply Hfail. right. reflexivity.
Defined.

(** C6, as the specification words it, fails: the query [_] returns every title
    with a non-empty column, none of which holds a [_]. *)
Lemma fetchBooksByQuery_not_substring : ~ query_is_substring "_" 1 10 shelf.
Proof.
  intros H.
  destruct (H (mkSearchPage [ulysses; emma; dune] (Num 1) 1 3) eq_refl
              dune (or_intror (or_intror (or_introl eq_refl))))
    as [C|[C|[C|C]]];
    vm_compute in C; discriminate C.
Qed.

(** * Further properties of the repository *)

(** ** [deleteBooks] *)

Lemma deleteBooks_run (id' : Z) (s : Store) :
  deleteBooks id' s =
  (Returned tt,
   if rejected 0 s
   then next_statement s
   else with_books (filter (fun r => negb (eq_Z id id' r)) (tbl_books s))
                   (next_statement s)).
Proof.
  unfold deleteBooks, try_catch, bind, delete_books.
  destruct (rejected 0 s) eqn:R0.
  - rewrite (statement_rejected _ _ R0). reflexivity.
  - rewrite (statement_accepted _ _ R0). reflexivity.
Qed.

Lemma filter_not_id (id' : Z) (l : list Book) (b : Book) :
  In b (filter (fun r => negb (eq_Z id id' r)) l) <-> In b l /\ id b <> id'.
Proof.
  rewrite filter_In. unfold eq_Z.
  destruct (Z.eqb_spec (id b) id'); simpl; intuition congruence.
Qed.

(** X1. [deleteBooks] never throws and returns nothing, whether the
    store accepts the statement or not.  When the statement is accepted
    the table holds exactly its former rows of another [id], in their
    former order (so a delete of an [id] no row has changes nothing);
    when it is rejected the table is as before. *)
Theorem deleteBooks_soft (id' : Z) (s : Store) :
  outcome (deleteBooks id' s) = Returned tt /\
  (rejected 0 s = true ->
   tbl_books (final (deleteBooks id' s)) = tbl_books s) /\
  (rejected 0 s = false ->
   tbl_books (final (deleteBooks id' s)) =
   filter (fun b => negb (id b =? id')) (tbl_books s) /\
   (forall b,
      In b (tbl_books (final (deleteBooks id' s))) <->
      In b (tbl_books s) /\ id b <> id') /\
   ((forall b, In b (tbl_books s) -> id b <> id') ->
    tbl_books (final (deleteBooks id' s)) = tbl_books s)).
Proof.
  rewrite deleteBooks_run. unfold outcome, final. cbn [fst snd].
  split; [reflexivity|]. split; intros R0; rewrite R0; [reflexivity|].
  cbn [tbl_books with_books]. split; [reflexivity|]. split.
  - intros b. apply filter_not_id.
  - intros Hno. induction (tbl_books s) as [|x l IH]; [reflexivity|].
    simpl. unfold eq_Z at 1.
    destruct (Z.eqb_spec (id x) id') as [E|E].
    + exfalso. exact (Hno x (or_introl eq_refl) E).
    + simpl. f_equal. apply IH. intros b Hb. apply Hno. right. exact Hb.
Qed.

Lemma deleteBooks_soft_witness :
  tbl_books (final (deleteBooks 2 shelf)) = [dune; ulysses] /\
  tbl_books (final (deleteBooks 2 (with_faults [true] shelf))) =
  [dune; emma; ulysses].
Proof.
  split.
  - exact (proj1 (proj2 (proj2 (deleteBooks_soft 2 shelf)) eq_refl)).
  - exact (proj1 (proj2 (deleteBooks_soft 2 (with_faults [true] shelf)))
             eq_refl).
Defined.

(** X2. After [deleteBooks] on an [id], accepted by the store,
    [fetchBookById] on that [id] yields [null]. *)
Theorem deleteBooks_then_fetch (id' : Z) (s : Store) :
  rejected 0 s = false -> rejected 1 s = false ->
  outcome (fetchBookById id' (final (deleteBooks id' s))) = Returned Null.
Proof.
  intros R0 R1. rewrite deleteBooks_run, R0. unfold final. cbn [snd].
  rewrite fetchBookById_run.
  match goal with
  | |- context [rejected 0 ?s'] =>
      replace (rejected 0 s') with (rejected 1 s)
        by (rewrite <- rejected_next; reflexivity)
  end.
  rewrite R1. cbn [tbl_books with_books]. unfold outcome. cbn [fst].
  replace (find (eq_Z id id')
             (filter (fun r => negb (eq_Z id id' r)) (tbl_books s)))
    with (@None Book); [reflexivity|].
  symmetry. apply find_none_iff. intros b Hb.
  apply filter_not_id in Hb. unfold eq_Z. lia.
Qed.

Lemma deleteBooks_then_fetch_witness :
  outcome (fetchBookById 2 (final (deleteBooks 2 shelf))) = Returned Null.
Proof. exact (deleteBooks_then_fetch 2 shelf eq_refl eq_refl). Defined.

(** ** Updates and the lookup that follows *)

Lemma find_map_update (i : Z) (set : Book -> Book) (l : list Book) :
  (forall b, id (set b) = id b) ->
  find (eq_Z id i) (map (fun b => if eq_Z id i b then set b else b) l) =
  option_map set (find (eq_Z id i) l).
Proof.
  intros Hid. induction l as [|x l IH]; [reflexivity|]. simpl.
  destruct (eq_Z id i x) eqn:E.
  - assert (E' : eq_Z id i (set x) = true).
    { unfold eq_Z in *. rewrite Hid. exact E. }
    rewrite E'. reflexivity.
  - rewrite E. exact IH.
Qed.

Lemma map_update_none (i : Z) (set : Book -> Book) (l : list Book) :
  (forall b, In b l -> id b <> i) ->
  map (fun b => if eq_Z id i b then set b else b) l = l /\
  filter (eq_Z id i) l = [].
Proof.
  intros H. induction l as [|x l IH]; [split; reflexivity|]. simpl.
  assert (E : eq_Z id i x = false).
  { unfold eq_Z. specialize (H x (or_introl eq_refl)). lia. }
  rewrite E. destruct IH as [IH1 IH2].
  - intros b Hb. apply H. right. exact Hb.
  - rewrite IH1. split; [reflexivity|exact IH2].
Qed.

Lemma rejected_after (s s' : Store) :
  faults s' = tl (faults s) -> rejected 0 s' = rejected 1 s.
Proof.
  intros H. unfold rejected. rewrite H.
  destruct (faults s) as [|f [|g fs]]; reflexivity.
Qed.

(** X3. [updateBooks] on an [id] that no row has, accepted by the
    store, returns [undefined] (not the [null] of a rejected statement)
    and leaves the table as it was. *)
Theorem updateBooks_missing_id
  (id' totalCopies' availableCopies' : Z) (s : Store) :
  rejected 0 s = false ->
  (forall b, In b (tbl_books s) -> id b <> id') ->
  outcome (updateBooks id' totalCopies' availableCopies' s) =
  Returned Undefined /\
  tbl_books (final (updateBooks id' totalCopies' availableCopies' s)) =
  tbl_books s.
Proof.
  intros R0 Hno. rewrite updateBooks_run, R0. unfold outcome, final.
  cbn [fst snd tbl_books with_books].
  destruct (map_update_none id' (with_counts totalCopies' availableCopies')
              (tbl_books s) Hno) as [Hm Hf].
  rewrite Hm, Hf. split; reflexivity.
Qed.

Lemma updateBooks_missing_id_witness :
  outcome (updateBooks 9 5 4 shelf) = Returned Undefined.
Proof.
  refine (proj1 (updateBooks_missing_id 9 5 4 shelf eq_refl _)).
  intros b Hb. repeat (destruct Hb as [<-|Hb]; [discriminate|]). destruct Hb.
Defined.

(** X4. After [updateBooks] on the [id] of a title, accepted by the
    store, [fetchBookById] on that [id] yields the title with the two
    new counts and every other column as before. *)
Theorem updateBooks_then_fetch
  (id' totalCopies' availableCopies' : Z) (s : Store) (b : Book) :
  rejected 0 s = false -> rejected 1 s = false ->
  find (eq_Z id id') (tbl_books s) = Some b ->
  outcome
    (fetchBookById id'
       (final (updateBooks id' totalCopies' availableCopies' s))) =
  Returned
    (Value (mkBook (id b) (isbn b) (title b) (author b) (genre b)
                   totalCopies' availableCopies' (cover b))).
Proof.
  intros R0 R1 F. rewrite updateBooks_run, R0. unfold final. cbn [snd].
  rewrite fetchBookById_run, (rejected_after s) by reflexivity.
  rewrite R1. cbn [tbl_books with_books]. unfold outcome. cbn [fst].
  rewrite find_map_update by reflexivity. rewrite F. reflexivity.
Qed.

Lemma updateBooks_then_fetch_witness :
  outcome (fetchBookById 2 (final (updateBooks 2 5 4 shelf))) =
  Returned
    (Value (mkBook 2 "9780141439587" "Emma" "Jane Austen" "Novel" 5 4
                   "emma.png")).
Proof.
  exact (updateBooks_then_fetch 2 5 4 shelf emma eq_refl eq_refl eq_refl).
Defined.

(** ** [updateBook] *)

Lemma updateBook_run
  (id' : Z) (title' author' genre' isbn' : string)
  (totalCopies' availableCopies' : Z) (cover' : string) (s : Store) :
  updateBook id' title' author' genre' isbn' totalCopies' availableCopies'
             cover' s =
  if rejected 0 s
  then (Thrown StoreError, next_statement s)
  else (Returned
          (mkQueryResult "UPDATE"
             (Z.of_nat (List.length (filter (eq_Z id id') (tbl_books s))))
             []),
        with_books
          (map (fun b =>
                  if eq_Z id id' b
                  then mkBook (id b) isbn' title' author' genre' totalCopies'
                              availableCopies' cover'
                  else b)
               (tbl_books s))
          (next_statement s)).
Proof.
  unfold updateBook, try_catch, bind, update_books.
  destruct (rejected 0 s) eqn:R0.
  - rewrite (statement_rejected _ _ R0). reflexivity.
  - rewrite (statement_accepted _ _ R0). reflexivity.
Qed.

(** X5. [updateBook] overwrites every column but [id] of the rows of
    the given [id], touches no other row and no copy, and returns the
    driver's result, which carries no row.  A rejected statement is
    thrown to the caller and the table is as before. *)
Theorem updateBook_overwrite
  (id' : Z) (title' author' genre' isbn' : string)
  (totalCopies' availableCopies' : Z) (cover' : string) (s : Store) :
  (rejected 0 s = true ->
   outcome (updateBook id' title' author' genre' isbn' totalCopies'
                       availableCopies' cover' s) = Thrown StoreError /\
   tbl_books (final (updateBook id' title' author' genre' isbn' totalCopies'
                                availableCopies' cover' s)) = tbl_books s) /\
  (rejected 0 s = false ->
   (exists res,
      outcome (updateBook id' title' author' genre' isbn' totalCopies'
                          availableCopies' cover' s) = Returned res /\
      returned_title res = None) /\
   Forall2
     (fun b b' =>
        (id b = id' ->
         b' = overwritten id' title' author' genre' isbn' totalCopies'
                          availableCopies' cover') /\
        (id b <> id' -> b' = b))
     (tbl_books s)
     (tbl_books (final (updateBook id' title' author' genre' isbn'
                                   totalCopies' availableCopies' cover' s))) /\
   tbl_physicalBooks
     (final (updateBook id' title' author' genre' isbn' totalCopies'
                        availableCopies' cover' s)) = tbl_physicalBooks s).
Proof.
  rewrite updateBook_run. split; intros R0; rewrite R0;
    unfold outcome, final; cbn [fst snd].
  - split; reflexivity.
  - split; [eexists; split; reflexivity|]. split; [|reflexivity].
    cbn [tbl_books with_books]. apply Forall2_map_r. intros b _.
    unfold eq_Z, overwritten.
    destruct (Z.eqb_spec (id b) id') as [E|E].
    + split; [intros _; rewrite E; reflexivity|contradiction].
    + split; [contradiction|reflexivity].
Qed.

Lemma updateBook_overwrite_witness :
  tbl_books
    (final (updateBook 2 "Persuasion" "J. Austen" "Classic" "9780141439686"
                       7 6 "p.png" (with_faults [true] shelf))) =
  tbl_books (with_faults [true] shelf).
Proof.
  exact (proj2 (proj1 (updateBook_overwrite 2 "Persuasion" "J. Austen"
                         "Classic" "9780141439686" 7 6 "p.png"
                         (with_faults [true] shelf)) eq_refl)).
Defined.

(** X6. After [updateBook] on the [id] of a title, accepted by the
    store, [fetchBookById] on that [id] yields exactly the values
    written, under the same [id]. *)
Theorem updateBook_then_fetch
  (id' : Z) (title' author' genre' isbn' : string)
  (totalCopies' availableCopies' : Z) (cover' : string) (s : Store) (b : Book) :
  rejected 0 s = false -> rejected 1 s = false ->
  In b (tbl_books s) -> id b = id' ->
  outcome
    (fetchBookById id'
       (final (updateBook id' title' author' genre' isbn' totalCopies'
                          availableCopies' cover' s))) =
  Returned
    (Value (overwritten id' title' author' genre' isbn' totalCopies'
                        availableCopies' cover')).
Proof.
  intros R0 R1 Hin Hid. rewrite updateBook_run, R0. unfold final. cbn [snd].
  rewrite fetchBookById_run, (rejected_after s) by reflexivity.
  rewrite R1. cbn [tbl_books with_books]. unfold outcome. cbn [fst].
  rewrite find_map_update by reflexivity.
  destruct (find (eq_Z id id') (tbl_books s)) as [x|] eqn:F.
  - apply find_some in F. destruct F as [_ F]. unfold eq_Z in F.
    apply Z.eqb_eq in F. simpl. rewrite F. reflexivity.
  - exfalso. pose proof (proj1 (find_none_iff _ _) F b Hin) as C.
    unfold eq_Z in C. lia.
Qed.

Lemma updateBook_then_fetch_witness :
  outcome
    (fetchBookById 2
       (final (updateBook 2 "Persuasion" "J. Austen" "Classic"
                          "9780141439686" 7 6 "p.png" shelf))) =
  Returned
    (Value (mkBook 2 "9780141439686" "Persuasion" "J. Austen" "Classic" 7 6
                   "p.png")).
Proof.
  refine (updateBook_then_fetch 2 "Persuasion" "J. Austen" "Classic"
            "9780141439686" 7 6 "p.png" shelf emma eq_refl eq_refl _ eq_refl).
  right. left. reflexivity.
Defined.

(** ** The copies of a title *)

Lemma rejected_after_n (n : nat) (s s' : Store) :
  faults s' = tl (faults s) -> rejected n s' = rejected (S n) s.
Proof.
  intros H. unfold rejected. rewrite H.
  destruct (faults s) as [|f fs]; [destruct n|]; reflexivity.
Qed.

Lemma select_physicalBooks_run (q : Select PhysicalBook) (s : Store) :
  select_physicalBooks q s =
  (if rejected 0 s then Thrown StoreError
   else match eval_select q (tbl_physicalBooks s) with
        | Some rows => Returned rows
        | None => Thrown StoreError
        end,
   next_statement s).
Proof.
  unfold select_physicalBooks. destruct (rejected 0 s) eqn:R0.
  - apply statement_rejected. exact R0.
  - rewrite (statement_accepted _ _ R0), tbl_physicalBooks_next.
    destruct (eval_select q (tbl_physicalBooks s)); reflexivity.
Qed.

Lemma createPhysicalBooks_run
  (bookId' : Z) (borrowed' : bool) (returnDate' : option string)
  (userId' : string) (currTransactionId' : Z) (s : Store) :
  createPhysicalBooks bookId' borrowed' returnDate' userId' currTransactionId'
                      s =
  if rejected 0 s
  then (Thrown StoreError, next_statement s)
  else
    let row :=
      mkPhysicalBook (next_pid s) bookId' borrowed' returnDate' (Some userId')
                     (Some currTransactionId') in
    (Returned (Value row),
     with_next_pid (next_pid s + 1)
       (with_physicalBooks (tbl_physicalBooks s ++ [row]) (next_statement s))).
Proof.
  unfold createPhysicalBooks, try_catch, bind, insert_physicalBooks_returning.
  destruct (rejected 0 s) eqn:R0.
  - rewrite (statement_rejected _ _ R0). reflexivity.
  - rewrite (statement_accepted _ _ R0). reflexivity.
Qed.

Lemma getActivePhysicalBooksCount_run (bookId' : Z) (s : Store) :
  getActivePhysicalBooksCount bookId' s =
  (if rejected 0 s then Thrown StoreError
   else Returned (Z.of_nat (List.length (copies_of bookId' s))),
   next_statement s).
Proof.
  unfold getActivePhysicalBooksCount, try_catch, bind.
  rewrite select_physicalBooks_run. unfold eval_select, copies_of.
  cbn [where_ orderBy limit offset apply_where].
  destruct (rejected 0 s); reflexivity.
Qed.

Lemma readPhysicalBooks_run (bookId' : Z) (s : Store) :
  readPhysicalBooks bookId' s =
  (if rejected 0 s then Thrown StoreError
   else Returned (copies_of bookId' s),
   next_statement s).
Proof.
  unfold readPhysicalBooks, try_catch, bind.
  rewrite select_physicalBooks_run. unfold eval_select, copies_of.
  cbn [where_ orderBy limit offset apply_where].
  destruct (rejected 0 s); reflexivity.
Qed.

(** X7. [createPhysicalBooks] returns the row it has written: the given
    values under the next serial [pid].  The row is added at the end of
    [physical_books] and [books] is untouched.  A rejected insert is
    thrown to the caller and writes nothing. *)
Theorem createPhysicalBooks_returns_row
  (bookId' : Z) (borrowed' : bool) (returnDate' : option string)
  (userId' : string) (currTransactionId' : Z) (s : Store) :
  let r :=
    createPhysicalBooks bookId' borrowed' returnDate' userId'
                        currTransactionId' s in
  let row :=
    mkPhysicalBook (next_pid s) bookId' borrowed' returnDate' (Some userId')
                   (Some currTransactionId') in
  (rejected 0 s = true ->
   outcome r = Thrown StoreError /\
   tbl_physicalBooks (final r) = tbl_physicalBooks s) /\
  (rejected 0 s = false ->
   outcome r = Returned (Value row) /\
   tbl_physicalBooks (final r) = tbl_physicalBooks s ++ [row] /\
   tbl_books (final r) = tbl_books s).
Proof.
  intros r row. subst r. rewrite createPhysicalBooks_run.
  split; intros R0; rewrite R0; unfold outcome, final; cbn [fst snd];
    repeat split.
Qed.

Lemma createPhysicalBooks_returns_row_witness :
  outcome (createPhysicalBooks 2 false None "u9" 8 shelf) =
  Returned (Value (mkPhysicalBook 13 2 false None (Some "u9") (Some 8))).
Proof.
  exact (proj1 (proj2 (createPhysicalBooks_returns_row 2 false None "u9" 8
                         shelf) eq_refl)).
Defined.

(** X8. After [createPhysicalBooks] for a title, accepted by the store,
    [readPhysicalBooks] of that title yields its former copies and the
    new one, in whatever order, [getActivePhysicalBooksCount] is one
    more than before, and [readPhysicalBooks] of every other title
    yields the copies it had. *)
Theorem createPhysicalBooks_then_read
  (bookId' : Z) (borrowed' : bool) (returnDate' : option string)
  (userId' : string) (currTransactionId' : Z) (s : Store) :
  rejected 0 s = false -> rejected 1 s = false ->
  let s' :=
    final (createPhysicalBooks bookId' borrowed' returnDate' userId'
                               currTransactionId' s) in
  (exists rows,
     outcome (readPhysicalBooks bookId' s') = Returned rows /\
     Permutation
       rows
       (mkPhysicalBook (next_pid s) bookId' borrowed' returnDate'
                       (Some userId') (Some currTransactionId')
          :: copies_of bookId' s)) /\
  outcome (getActivePhysicalBooksCount bookId' s') =
  Returned (Z.of_nat (List.length (copies_of bookId' s)) + 1) /\
  (forall other,
     other <> bookId' ->
     exists rows,
       outcome (readPhysicalBooks other s') = Returned rows /\
       Permutation rows (copies_of other s)).
Proof.
  intros R0 R1 s'. subst s'. rewrite createPhysicalBooks_run, R0.
  unfold final. cbn [snd].
  set (row := mkPhysicalBook (next_pid s) bookId' borrowed' returnDate'
                             (Some userId') (Some currTransactionId')).
  set (s' := with_next_pid _ _).
  assert (R : rejected 0 s' = false).
  { rewrite (rejected_after_n 0 s) by reflexivity. exact R1. }
  assert (C : forall b,
             copies_of b s' = copies_of b s ++ filter (eq_Z bookId b) [row]).
  { intros b. unfold copies_of, s'. simpl. apply filter_app. }
  rewrite !readPhysicalBooks_run, getActivePhysicalBooksCount_run, R.
  unfold outcome. cbn [fst].
  assert (E : eq_Z bookId bookId' row = true).
  { unfold eq_Z. simpl. apply Z.eqb_refl. }
  split; [|split].
  - eexists. split; [reflexivity|]. rewrite C. simpl. rewrite E.
    apply Permutation_sym, Permutation_cons_append.
  - rewrite C. simpl. rewrite E, length_app. simpl. f_equal. lia.
  - intros other Hne. rewrite readPhysicalBooks_run, R. cbn [fst].
    eexists. split; [reflexivity|]. rewrite C. simpl.
    assert (E' : eq_Z bookId other row = false).
    { unfold eq_Z. simpl. apply Z.eqb_neq. congruence. }
    rewrite E', app_nil_r. apply Permutation_refl.
Qed.

Lemma createPhysicalBooks_then_read_witness :
  outcome
    (getActivePhysicalBooksCount 1
       (final (createPhysicalBooks 1 false None "u9" 8 shelf))) =
  Returned 4.
Proof.
  exact (proj1 (proj2 (createPhysicalBooks_then_read 1 false None "u9" 8 shelf
                         eq_refl eq_refl))).
Defined.

Lemma find_fresh_pid (n : Z) (l : list PhysicalBook) (c : PhysicalBook) :
  (forall x, In x l -> pid x < n) -> pid c = n ->
  find (eq_Z pid n) (l ++ [c]) = Some c /\
  filter (fun r => negb (eq_Z pid n r)) (l ++ [c]) = l.
Proof.
  intros Hl Hc. induction l as [|x l IH]; simpl.
  - unfold eq_Z. rewrite Hc, Z.eqb_refl. split; reflexivity.
  - assert (E : eq_Z pid n x = false).
    { unfold eq_Z. specialize (Hl x (or_introl eq_refl)). lia. }
    rewrite E. simpl. destruct IH as [IH1 IH2].
    + intros y Hy. apply Hl. right. exact Hy.
    + rewrite IH1, IH2. split; reflexivity.
Qed.

(** X9. A copy created and then removed by the [pid] it was given
    leaves [physical_books] as it was, when it was created not
    borrowed; created borrowed, the removal throws the invalid-state
    error and the copy stays. *)
Theorem createPhysicalBooks_then_delete
  (bookId' : Z) (borrowed' : bool) (returnDate' : option string)
  (userId' : string) (currTransactionId' : Z) (s : Store) :
  pids_fresh s ->
  rejected 0 s = false -> rejected 1 s = false -> rejected 2 s = false ->
  let s' :=
    final (createPhysicalBooks bookId' borrowed' returnDate' userId'
                               currTransactionId' s) in
  (borrowed' = false ->
   outcome (deletePhysicalBook (next_pid s) s') = Returned true /\
   tbl_physicalBooks (final (deletePhysicalBook (next_pid s) s')) =
   tbl_physicalBooks s) /\
  (borrowed' = true ->
   outcome (deletePhysicalBook (next_pid s) s') = Thrown InvalidStateError /\
   tbl_physicalBooks (final (deletePhysicalBook (next_pid s) s')) =
   tbl_physicalBooks s' /\
   List.length (tbl_physicalBooks s') =
   S (List.length (tbl_physicalBooks s))).
Proof.
  intros Hfresh R0 R1 R2 s'.
  set (row := mkPhysicalBook (next_pid s) bookId' borrowed' returnDate'
                             (Some userId') (Some currTransactionId')).
  assert (Hs' : s' =
                with_next_pid (next_pid s + 1)
                  (with_physicalBooks (tbl_physicalBooks s ++ [row])
                                      (next_statement s))).
  { unfold s'. rewrite createPhysicalBooks_run, R0. reflexivity. }
  clearbody s'.
  assert (Q0 : rejected 0 s' = false).
  { rewrite (rejected_after_n 0 s) by (rewrite Hs'; reflexivity). exact R1. }
  assert (Q1 : rejected 1 s' = false).
  { rewrite (rejected_after_n 1 s) by (rewrite Hs'; reflexivity). exact R2. }
  assert (T : tbl_physicalBooks s' = tbl_physicalBooks s ++ [row])
    by (rewrite Hs'; reflexivity).
  destruct (find_fresh_pid (next_pid s) (tbl_physicalBooks s) row Hfresh
              eq_refl) as [F G].
  rewrite deletePhysicalBook_run, Q0, Q1, T, F.
  change (borrowed row) with borrowed'.
  split; intros B; rewrite B; unfold outcome, final; cbn [fst snd].
  - split; [reflexivity|]. cbn [tbl_physicalBooks with_physicalBooks].
    exact G.
  - split; [reflexivity|]. split; [rewrite tbl_physicalBooks_next; exact T|].
    rewrite length_app. simpl. lia.
Qed.

Lemma createPhysicalBooks_then_delete_witness :
  tbl_physicalBooks
    (final (deletePhysicalBook 13
              (final (createPhysicalBooks 2 false None "u9" 8 shelf)))) =
  [copy1; copy2; copy3].
Proof.
  refine (proj2 (proj1 (createPhysicalBooks_then_delete 2 false None "u9" 8
                          shelf _ eq_refl eq_refl eq_refl) eq_refl)).
  intros c Hc. simpl in Hc.
  repeat (destruct Hc as [<-|Hc]; [reflexivity|]). destruct Hc.
Defined.

Lemma filter_split_length {A} (w g : A -> bool) (l : list A) :
  List.length (filter w l) =
  (List.length (filter (fun x => w x && negb (g x)) l) +
   List.length (filter g (filter w l)))%nat.
Proof.
  induction l as [|x l IH]; [reflexivity|]. simpl.
  destruct (w x); simpl; [|exact IH].
  destruct (g x); simpl; lia.
Qed.

(** X10. The count of [getActivePhysicalBooksCount] is the number of
    rows [readPhysicalBooks] yields for the title, borrowed or not; it
    is the [availableBooks] of [readSingleBook] plus the number of
    borrowed copies, so [availableBooks] never exceeds it. *)
Theorem copies_count_split (bookId' : Z) (s : Store) :
  rejected 0 s = false ->
  outcome (readPhysicalBooks bookId' s) = Returned (copies_of bookId' s) /\
  (forall c,
     In c (copies_of bookId' s) <->
     In c (tbl_physicalBooks s) /\ bookId c = bookId') /\
  outcome (getActivePhysicalBooksCount bookId' s) =
  Returned (Z.of_nat (List.length (copies_of bookId' s))) /\
  Z.of_nat (List.length (copies_of bookId' s)) =
  available_copies bookId' s + borrowed_copies bookId' s /\
  (forall v,
     outcome (readSingleBook bookId' s) = Returned (Value v) ->
     availableBooks v + borrowed_copies bookId' s =
     Z.of_nat (List.length (copies_of bookId' s)) /\
     0 <= availableBooks v <= Z.of_nat (List.length (copies_of bookId' s))).
Proof.
  intros R0.
  rewrite readPhysicalBooks_run, getActivePhysicalBooksCount_run, R0.
  unfold outcome. cbn [fst].
  assert (Hsplit : Z.of_nat (List.length (copies_of bookId' s)) =
                   available_copies bookId' s + borrowed_copies bookId' s).
  { unfold available_copies, borrowed_copies, copies_of.
    rewrite (filter_split_length (eq_Z bookId bookId') borrowed).
    unfold eq_Z. lia. }
  split; [reflexivity|]. split; [|split; [reflexivity|split; [exact Hsplit|]]].
  - intros c. unfold copies_of. rewrite filter_In. unfold eq_Z.
    rewrite Z.eqb_eq. reflexivity.
  - intros v Hv. rewrite readSingleBook_run, R0 in Hv.
    destruct (find (eq_Z id bookId') (tbl_books s)); [|discriminate Hv].
    destruct (rejected 1 s); [discriminate Hv|].
    cbn [fst] in Hv. injection Hv as <-. cbn [availableBooks].
    unfold available_copies, borrowed_copies in *. lia.
Qed.

Lemma copies_count_split_witness :
  outcome (getActivePhysicalBooksCount 1 shelf) = Returned 3 /\
  3 = available_copies 1 shelf + borrowed_copies 1 shelf.
Proof.
  destruct (copies_count_split 1 shelf eq_refl) as (_ & _ & H & E & _).
  split; [exact H|exact E].
Defined.

(** X11. [deletePhysicalBook] removes nothing when it throws, whatever
    it throws, and in no case changes [books]. *)
Theorem deletePhysicalBook_throws_keeps (pid' : Z) (s : Store) :
  tbl_books (final (deletePhysicalBook pid' s)) = tbl_books s /\
  (forall e,
     outcome (deletePhysicalBook pid' s) = Thrown e ->
     tbl_physicalBooks (final (deletePhysicalBook pid' s)) =
     tbl_physicalBooks s).
Proof.
  rewrite deletePhysicalBook_run. unfold outcome, final.
  destruct (rejected 0 s); [split; [reflexivity|intros; reflexivity]|].
  destruct (find (eq_Z pid pid') (tbl_physicalBooks s)) as [c|];
    [|split; [reflexivity|intros; reflexivity]].
  destruct (borrowed c); [split; [reflexivity|intros; reflexivity]|].
  destruct (rejected 1 s); [split; [reflexivity|intros; reflexivity]|].
  split; [reflexivity|]. intros e H. discriminate H.
Qed.

Lemma filter_keep_all (p : Z) (l : list PhysicalBook) :
  ~ In p (map pid l) -> filter (fun r => negb (eq_Z pid p r)) l = l.
Proof.
  induction l as [|y l IH]; simpl; intros H; [reflexivity|].
  assert (E : eq_Z pid p y = false).
  { unfold eq_Z. apply Z.eqb_neq. intros C. apply H. left. exact C. }
  rewrite E. simpl. f_equal. apply IH. intros C. apply H. right. exact C.
Qed.

Lemma filter_drop_key (p : Z) (l : list PhysicalBook) (c : PhysicalBook) :
  NoDup (map pid l) -> find (eq_Z pid p) l = Some c ->
  exists l1 l2,
    l = l1 ++ c :: l2 /\
    filter (fun r => negb (eq_Z pid p r)) l = l1 ++ l2.
Proof.
  induction l as [|x l IH]; simpl; intros Hnd F; [discriminate F|].
  inversion Hnd as [|y l' Hnin Hnd']; subst.
  destruct (eq_Z pid p x) eqn:E.
  - injection F as <-. exists [], l. split; [reflexivity|]. simpl.
    apply filter_keep_all. unfold eq_Z in E. apply Z.eqb_eq in E.
    rewrite <- E. exact Hnin.
  - destruct (IH Hnd' F) as (l1 & l2 & -> & G).
    exists (x :: l1), l2. split; [reflexivity|]. simpl. rewrite G.
    reflexivity.
Qed.

Lemma length_filter_insert {A} (w : A -> bool) (l1 l2 : list A) (c : A) :
  List.length (filter w (l1 ++ c :: l2)) =
  (List.length (filter w (l1 ++ l2)) + (if w c then 1 else 0))%nat.
Proof.
  rewrite !filter_app, !length_app. simpl.
  destruct (w c); simpl; lia.
Qed.

Lemma filter_insert_false {A} (w : A -> bool) (l1 l2 : list A) (c : A) :
  w c = false -> filter w (l1 ++ c :: l2) = filter w (l1 ++ l2).
Proof. intros H. rewrite !filter_app. simpl. rewrite H. reflexivity. Qed.

(** X12. With no [pid] twice in [physical_books], a removal that
    succeeds takes exactly one copy away: the title of the removed copy
    has one copy less and one available copy less, and the copies of
    the other titles are as before. *)
Theorem deletePhysicalBook_one_less (pid' : Z) (s : Store) (c : PhysicalBook) :
  NoDup (map pid (tbl_physicalBooks s)) ->
  rejected 0 s = false -> rejected 1 s = false ->
  find (eq_Z pid pid') (tbl_physicalBooks s) = Some c ->
  borrowed c = false ->
  let s' := final (deletePhysicalBook pid' s) in
  List.length (tbl_physicalBooks s) = S (List.length (tbl_physicalBooks s')) /\
  List.length (copies_of (bookId c) s) =
  S (List.length (copies_of (bookId c) s')) /\
  available_copies (bookId c) s' = available_copies (bookId c) s - 1 /\
  (forall other, other <> bookId c -> copies_of other s' = copies_of other s).
Proof.
  intros Hnd R0 R1 F B s'. subst s'.
  rewrite deletePhysicalBook_run, R0, F, B, R1. unfold final. cbn [snd].
  destruct (filter_drop_key pid' (tbl_physicalBooks s) c Hnd F)
    as (l1 & l2 & E & G).
  unfold copies_of, available_copies.
  cbn [tbl_physicalBooks with_physicalBooks next_statement with_faults].
  rewrite G, E. rewrite !length_filter_insert.
  unfold eq_Z. rewrite Z.eqb_refl, B. simpl andb. cbv iota.
  split; [rewrite !length_app; simpl; lia|].
  split; [lia|]. split; [lia|].
  intros other Hne. symmetry. apply filter_insert_false.
  apply Z.eqb_neq. congruence.
Qed.

Lemma deletePhysicalBook_one_less_witness :
  available_copies 1 (final (deletePhysicalBook 10 shelf)) =
  available_copies 1 shelf - 1.
Proof.
  refine (proj1 (proj2 (proj2 (deletePhysicalBook_one_less 10 shelf copy1 _
                                 eq_refl eq_refl eq_refl eq_refl)))).
  repeat constructor; simpl; intuition discriminate.
Defined.

(** ** The keys of the two tables *)

Lemma NoDup_snoc {A} (l : list A) (x : A) :
  NoDup l -> ~ In x l -> NoDup (l ++ [x]).
Proof.
  intros Hl Hx. apply (Permutation_NoDup (l := x :: l)).
  - apply Permutation_cons_append.
  - constructor; assumption.
Qed.

Lemma map_id_update (i : Z) (set : Book -> Book) (l : list Book) :
  (forall b, id (set b) = id b) ->
  map id (map (fun b => if eq_Z id i b then set b else b) l) = map id l.
Proof.
  intros H. rewrite map_map. apply map_ext. intros b.
  destruct (eq_Z id i b); [apply H|reflexivity].
Qed.

Lemma books_keyed_update (i : Z) (set : Book -> Book) (s s' : Store) :
  (forall b, id (set b) = id b) ->
  books_keyed s ->
  next_id s' = next_id s ->
  tbl_books s' = map (fun b => if eq_Z id i b then set b else b) (tbl_books s) ->
  books_keyed s'.
Proof.
  intros Hset [Hf Hnd] Hn Ht. split.
  - intros b Hb. rewrite Ht in Hb. rewrite Hn. apply in_map_iff in Hb.
    destruct Hb as (x & <- & Hx). specialize (Hf x Hx).
    destruct (eq_Z id i x); [rewrite Hset|]; exact Hf.
  - rewrite Ht, map_id_update by exact Hset. exact Hnd.
Qed.

Lemma books_keyed_same (s s' : Store) :
  books_keyed s -> next_id s' = next_id s -> tbl_books s' = tbl_books s ->
  books_keyed s'.
Proof.
  intros [Hf Hnd] Hn Ht. split.
  - intros b Hb. rewrite Ht in Hb. rewrite Hn. exact (Hf b Hb).
  - rewrite Ht. exact Hnd.
Qed.

(** X13. The key of [books] is kept by every function that writes the
    table, for all arguments and whether the store accepts the
    statement or not: if no [id] occurs twice and the serial is ahead
    of every [id] before [createBooks], [updateBooks], [updateBook] or
    [deleteBooks], the same holds after. *)
Theorem books_key_kept (s : Store) :
  books_keyed s ->
  (forall isbn' title' author' genre' totalCopies' availableCopies' cover',
     books_keyed
       (final (createBooks isbn' title' author' genre' totalCopies'
                           availableCopies' cover' s))) /\
  (forall id' totalCopies' availableCopies',
     books_keyed (final (updateBooks id' totalCopies' availableCopies' s))) /\
  (forall id' title' author' genre' isbn' totalCopies' availableCopies' cover',
     books_keyed
       (final (updateBook id' title' author' genre' isbn' totalCopies'
                          availableCopies' cover' s))) /\
  (forall id', books_keyed (final (deleteBooks id' s))).
Proof.
  intros K. split; [|split; [|split]].
  - intros. rewrite createBooks_run. unfold final.
    destruct (rejected 0 s); cbn [snd];
      [apply (books_keyed_same s); [exact K|reflexivity|reflexivity]|].
    destruct K as [Hf Hnd]. split.
    + intros b Hb. simpl in Hb. simpl. apply in_app_or in Hb.
      destruct Hb as [Hb|[<-|[]]]; [specialize (Hf b Hb); lia|simpl; lia].
    + simpl. rewrite map_app. simpl. apply NoDup_snoc; [exact Hnd|].
      intros Hin. apply in_map_iff in Hin. destruct Hin as (x & Hx & Hin).
      specialize (Hf x Hin). lia.
  - intros. rewrite updateBooks_run. unfold final.
    destruct (rejected 0 s); cbn [snd];
      [apply (books_keyed_same s); [exact K|reflexivity|reflexivity]|].
    apply (books_keyed_update id' (with_counts totalCopies' availableCopies') s);
      [reflexivity|exact K|reflexivity|reflexivity].
  - intros. rewrite updateBook_run. unfold final.
    destruct (rejected 0 s); cbn [snd];
      [apply (books_keyed_same s); [exact K|reflexivity|reflexivity]|].
    apply (books_keyed_update id'
             (fun b => mkBook (id b) isbn' title' author' genre' totalCopies'
                              availableCopies' cover') s);
      [reflexivity|exact K|reflexivity|reflexivity].
  - intros. rewrite deleteBooks_run. unfold final. cbn [snd].
    destruct (rejected 0 s);
      [apply (books_keyed_same s); [exact K|reflexivity|reflexivity]|].
    destruct K as [Hf Hnd]. split.
    + intros b Hb. simpl in Hb. apply filter_In in Hb. simpl.
      exact (Hf b (proj1 Hb)).
    + simpl. apply NoDup_map_filter. exact Hnd.
Qed.

Lemma shelf_books_keyed : books_keyed shelf.
Proof.
  split.
  - intros b Hb. simpl in Hb.
    repeat (destruct Hb as [<-|Hb]; [reflexivity|]). destruct Hb.
  - repeat constructor; simpl; intuition discriminate.
Qed.

Lemma books_key_kept_witness :
  books_keyed (final (createBooks "9780156027601" "Solaris" "Stanislaw Lem"
                                  "SciFi" 2 2 "s.png" shelf)).
Proof.
  exact (proj1 (books_key_kept shelf shelf_books_keyed) _ _ _ _ _ _ _).
Defined.

(** X14. The key of [physical_books] is kept by [createPhysicalBooks]
    and by [deletePhysicalBook], for all arguments and whether they
    return or throw. *)
Theorem physicalBooks_key_kept (s : Store) :
  physicalBooks_keyed s ->
  (forall bookId' borrowed' returnDate' userId' currTransactionId',
     physicalBooks_keyed
       (final (createPhysicalBooks bookId' borrowed' returnDate' userId'
                                   currTransactionId' s))) /\
  (forall pid', physicalBooks_keyed (final (deletePhysicalBook pid' s))).
Proof.
  intros [Hf Hnd]. split.
  - intros. rewrite createPhysicalBooks_run. unfold final.
    destruct (rejected 0 s); cbn [snd]; [split; assumption|]. split.
    + intros c Hc. simpl in Hc. simpl. apply in_app_or in Hc.
      destruct Hc as [Hc|[<-|[]]]; [specialize (Hf c Hc); lia|simpl; lia].
    + simpl. rewrite map_app. simpl. apply NoDup_snoc; [exact Hnd|].
      intros Hin. apply in_map_iff in Hin. destruct Hin as (x & Hx & Hin).
      specialize (Hf x Hin). lia.
  - intros. rewrite deletePhysicalBook_run. unfold final.
    destruct (rejected 0 s); cbn [snd]; [split; assumption|].
    destruct (find (eq_Z pid pid') (tbl_physicalBooks s)) as [c|];
      cbn [snd]; [|split; assumption].
    destruct (borrowed c); cbn [snd]; [split; assumption|].
    destruct (rejected 1 s); cbn [snd]; [split; assumption|]. split.
    + intros x Hx. simpl in Hx. apply filter_In in Hx. simpl.
      exact (Hf x (proj1 Hx)).
    + simpl. apply NoDup_map_filter. exact Hnd.
Qed.

Lemma shelf_physicalBooks_keyed : physicalBooks_keyed shelf.
Proof.
  split.
  - intros c Hc. simpl in Hc.
    repeat (destruct Hc as [<-|Hc]; [reflexivity|]). destruct Hc.
  - repeat constructor; simpl; intuition discriminate.
Qed.

Lemma physicalBooks_key_kept_witness :
  physicalBooks_keyed (final (deletePhysicalBook 10 shelf)).
Proof.
  exact (proj2 (physicalBooks_key_kept shelf shelf_physicalBooks_keyed) 10).
Defined.

(** ** A new title in the listings *)

Lemma order_rows_snoc_first {A} (le : A -> A -> bool) (l : list A) (b : A) :
  (forall x, In x l -> le x b = false) ->
  order_rows le (l ++ [b]) = b :: order_rows le l.
Proof.
  intros H. unfold order_rows. rewrite fold_right_app. simpl.
  induction l as [|x l IH]; [reflexivity|]. simpl. rewrite IH.
  - simpl. rewrite (H x (or_introl eq_refl)). reflexivity.
  - intros y Hy. apply H. right. exact Hy.
Qed.

Lemma createBooks_final
  (isbn' title' author' genre' : string) (totalCopies' availableCopies' : Z)
  (cover' : string) (s : Store) :
  rejected 0 s = false ->
  let s' :=
    final (createBooks isbn' title' author' genre' totalCopies'
                       availableCopies' cover' s) in
  tbl_books s' =
  tbl_books s ++
  [mkBook (next_id s) isbn' title' author' genre' totalCopies'
          availableCopies' cover'] /\
  faults s' = tl (faults s).
Proof.
  intros R0 s'. subst s'. rewrite createBooks_run, R0. split; reflexivity.
Qed.

(** X15. A title just created heads the recent titles: after
    [createBooks], accepted by a store whose serial is ahead of every
    [id], [fetchLimitedBooks] with a limit of at least 1 returns the
    new title first, followed by what [fetchLimitedBooks] returned for
    one less before the insert. *)
Theorem createBooks_then_recent
  (isbn' title' author' genre' : string) (totalCopies' availableCopies' : Z)
  (cover' : string) (limit' : Z) (s : Store) :
  ids_fresh s -> rejected 0 s = false -> rejected 1 s = false ->
  1 <= limit' ->
  exists rest,
    outcome (fetchLimitedBooks (limit' - 1) s) = Returned rest /\
    outcome
      (fetchLimitedBooks limit'
         (final (createBooks isbn' title' author' genre' totalCopies'
                             availableCopies' cover' s))) =
    Returned
      (mkBook (next_id s) isbn' title' author' genre' totalCopies'
              availableCopies' cover' :: rest).
Proof.
  intros Hfresh R0 R1 Hl.
  destruct (createBooks_final isbn' title' author' genre' totalCopies'
              availableCopies' cover' s R0) as [Ht Hf].
  set (s' := final _) in *. clearbody s'.
  rewrite !fetchLimitedBooks_run. unfold outcome. cbn [fst].
  rewrite (rejected_after_n 0 s s' Hf), R0, R1, Ht.
  rewrite !limited_nonneg by lia. eexists. split; [reflexivity|].
  rewrite order_rows_snoc_first.
  - replace (Z.to_nat limit') with (S (Z.to_nat (limit' - 1))) by lia.
    reflexivity.
  - intros x Hx. simpl. specialize (Hfresh x Hx). apply Z.leb_gt. exact Hfresh.
Qed.

Lemma createBooks_then_recent_witness :
  outcome
    (fetchLimitedBooks 2
       (final (createBooks "9780156027601" "Solaris" "Stanislaw Lem" "SciFi"
                           2 2 "s.png" shelf))) =
  Returned
    [mkBook 4 "9780156027601" "Solaris" "Stanislaw Lem" "SciFi" 2 2 "s.png";
     ulysses].
Proof.
  destruct (createBooks_then_recent "9780156027601" "Solaris" "Stanislaw Lem"
              "SciFi" 2 2 "s.png" 2 shelf) as (rest & H1 & H2);
    [apply shelf_books_keyed|reflexivity|reflexivity|lia|].
  rewrite H2. vm_compute in H1. injection H1 as <-. reflexivity.
Defined.

(** ** The size of a page *)

Lemma page_slice_length {A} (page pageSize : Z) (l : list A) :
  1 <= page -> 1 <= pageSize ->
  Z.of_nat (List.length (page_slice page pageSize l)) =
  Z.min pageSize
        (Z.max 0 (Z.of_nat (List.length l) - (page - 1) * pageSize)).
Proof.
  intros Hp Hs. unfold page_slice. rewrite length_firstn, length_skipn.
  nia.
Qed.

(** X16. For [page >= 1] and [pageSize >= 1], a page of [readBooks]
    holds [pageSize] rows while that many are left after the offset,
    the rest of the listing on the last page, and no row at all on a
    page beyond the last. *)
Theorem readBooks_page_length
  (page pageSize : Z) (sortField sortOrder searchQuery : string) (c : Column)
  (s : Store) :
  1 <= page -> 1 <= pageSize -> books_column sortField = Some c ->
  rejected 0 s = false -> rejected 1 s = false ->
  exists r,
    outcome (readBooks page pageSize sortField sortOrder searchQuery s) =
    Returned r /\
    Z.of_nat (List.length (books r)) =
    Z.min pageSize (Z.max 0 (totalBooks r - (page - 1) * pageSize)) /\
    (page * pageSize <= totalBooks r ->
     Z.of_nat (List.length (books r)) = pageSize) /\
    (totalBooks r <= (page - 1) * pageSize -> books r = []).
Proof.
  intros Hp Hs Hc R0 R1.
  rewrite (readBooks_returns page pageSize sortField sortOrder searchQuery c s
             Hp Hs Hc R0 R1).
  cbv zeta. eexists. split; [reflexivity|]. cbn [books totalBooks].
  pose proof (page_slice_length page pageSize
                (listing c sortOrder searchQuery s) Hp Hs) as HL.
  unfold listing in HL at 2. rewrite order_rows_length in HL.
  split; [exact HL|]. split.
  - intros H. rewrite HL. lia.
  - intros H.
    destruct (page_slice page pageSize (listing c sortOrder searchQuery s));
      [reflexivity|]. simpl in HL. lia.
Qed.

Lemma readBooks_page_length_witness :
  exists r,
    outcome (readBooks 3 2 "title" "asc" EmptyString shelf) = Returned r /\
    books r = [].
Proof.
  destruct (readBooks_page_length 3 2 "title" "asc" EmptyString col_title shelf)
    as (r & Hr & _ & _ & He);
    [lia|lia|reflexivity|reflexivity|reflexivity|].
  exists r. split; [exact Hr|]. apply He.
  vm_compute in Hr. injection Hr as <-. simpl. lia.
Defined.

(** X17. With a page size of 0 and the statements accepted, neither
    listing has a number of pages: [totalPages] is [NaN] when nothing
    matches and [Infinity] otherwise, for [readBooks] on any column and
    for [fetchBooksByQuery]. *)
Theorem zero_page_size_pages
  (page : Z) (sortField sortOrder searchQuery query : string) (c : Column)
  (s : Store) :
  rejected 0 s = false -> rejected 1 s = false ->
  books_column sortField = Some c ->
  (exists r,
     outcome (readBooks page 0 sortField sortOrder searchQuery s) =
     Returned r /\
     totalPages r = if totalBooks r =? 0 then NaN else Infinity) /\
  (exists r,
     outcome (fetchBooksByQuery query page 0 s) = Returned r /\
     q_totalPages r = if q_totalBooks r =? 0 then NaN else Infinity).
Proof.
  intros R0 R1 Hc. split.
  - rewrite readBooks_run, R0, R1.
    rewrite (books_property_column sortField c Hc), clause_order_column.
    cbn [orb]. replace ((page - 1) * 0) with 0 by lia.
    cbn [Z.ltb Z.compare]. cbv zeta.
    eexists. split; reflexivity.
  - rewrite fetchBooksByQuery_run, R0, R1. cbn [orb].
    replace ((page - 1) * 0) with 0 by lia.
    cbn [Z.ltb Z.compare]. cbv zeta.
    eexists. split; reflexivity.
Qed.

Lemma zero_page_size_pages_witness :
  exists r,
    outcome (readBooks 1 0 "title" "asc" EmptyString shelf) = Returned r /\
    totalPages r = Infinity.
Proof.
  destruct (proj1 (zero_page_size_pages 1 "title" "asc" EmptyString "x"
                     col_title shelf eq_refl eq_refl eq_refl))
    as (r & Hr & Hp).
  exists r. split; [exact Hr|]. rewrite Hp.
  vm_compute in Hr. injection Hr as <-. reflexivity.
Defined.

(** ** More on [fetchBooksByQuery] *)

Lemma any_suffix_here (f : string -> bool) (t : string) :
  f t = true -> any_suffix f t = true.
Proof. intros H. destruct t; simpl; rewrite H; reflexivity. Qed.

Lemma query_match_empty (b : Book) : query_match EmptyString b = true.
Proof.
  assert (H : forall t, like_match (LOWER ("%" ++ EmptyString ++ "%")) t = true).
  { intros t. change (LOWER ("%" ++ EmptyString ++ "%"))
      with (String "%" "%").
    rewrite like_match_percent. apply any_suffix_here, like_match_any. }
  unfold query_match. rewrite !H. reflexivity.
Qed.

Lemma filter_all {A} (w : A -> bool) (l : list A) :
  (forall x, w x = true) -> filter w l = l.
Proof.
  intros H. induction l as [|x l IH]; simpl; [reflexivity|].
  rewrite H, IH. reflexivity.
Qed.

(** X18. An empty query matches every title: for [page >= 1] and
    [pageSize >= 1], [fetchBooksByQuery] on the empty query counts all
    the rows of [books] and returns that page of them by descending
    [id]; its first page is what [fetchLimitedBooks] returns for the
    page size as limit. *)
Theorem fetchBooksByQuery_empty_query (page pageSize : Z) (s : Store) :
  rejected 0 s = false -> rejected 1 s = false ->
  1 <= page -> 1 <= pageSize ->
  exists r,
    outcome (fetchBooksByQuery EmptyString page pageSize s) = Returned r /\
    q_totalBooks r = Z.of_nat (List.length (tbl_books s)) /\
    q_books r =
    page_slice page pageSize
               (order_rows (fun a b => id b <=? id a) (tbl_books s)) /\
    (page = 1 ->
     outcome (fetchLimitedBooks pageSize s) = Returned (q_books r)).
Proof.
  intros R0 R1 Hp Hs. rewrite fetchBooksByQuery_run, R0, R1.
  assert (E1 : ((page - 1) * pageSize <? 0) = false) by (apply Z.ltb_ge; nia).
  rewrite E1. cbn [orb]. cbv zeta. rewrite page_slice_limited by lia.
  rewrite (filter_all _ (tbl_books s) query_match_empty).
  eexists. split; [reflexivity|]. cbn [q_books q_totalBooks].
  split; [reflexivity|]. split; [reflexivity|].
  intros ->. rewrite fetchLimitedBooks_run, R0, limited_nonneg by lia.
  reflexivity.
Qed.

Lemma fetchBooksByQuery_empty_query_witness :
  exists r,
    outcome (fetchBooksByQuery EmptyString 1 2 shelf) = Returned r /\
    q_totalBooks r = 3 /\
    outcome (fetchLimitedBooks 2 shelf) = Returned (q_books r).
Proof.
  destruct (fetchBooksByQuery_empty_query 1 2 shelf eq_refl eq_refl)
    as (r & Hr & Ht & _ & Hl); [lia|lia|].
  exists r. split; [exact Hr|]. split; [exact Ht|]. apply Hl. reflexivity.
Defined.

(** X19. [fetchBooksByQuery] reads its query without regard to case:
    two queries that are equal once in lower case get the same answer,
    on every store and every page. *)
Theorem fetchBooksByQuery_case (query query' : string) (page pageSize : Z)
  (s : Store) :
  LOWER query = LOWER query' ->
  outcome (fetchBooksByQuery query page pageSize s) =
  outcome (fetchBooksByQuery query' page pageSize s).
Proof.
  intros H. rewrite !fetchBooksByQuery_run.
  assert (E : forall b, query_match query b = query_match query' b).
  { intros b. unfold query_match. rewrite !LOWER_app, H. reflexivity. }
  rewrite (filter_ext _ _ E). reflexivity.
Qed.

Lemma fetchBooksByQuery_case_witness :
  outcome (fetchBooksByQuery "JaMeS" 1 10 shelf) =
  outcome (fetchBooksByQuery "james" 1 10 shelf).
Proof. exact (fetchBooksByQuery_case "JaMeS" "james" 1 10 shelf eq_refl). Defined.

Lemma search_concat_firstn
  (query : string) (pageSize : Z) (s : Store) (k : nat) :
  1 <= pageSize -> rejected 0 s = false -> rejected 1 s = false ->
  search_concat query pageSize s k =
  firstn (k * Z.to_nat pageSize)
         (order_rows (fun a b => id b <=? id a)
                     (filter (query_match query) (tbl_books s))).
Proof.
  intros Hs R0 R1. unfold search_concat.
  rewrite <- pages_firstn, <- seq_shift, map_map, flat_map_concat_map, map_map.
  rewrite <- flat_map_concat_map. apply flat_map_ext. intros i.
  unfold search_items. rewrite fetchBooksByQuery_run, R0, R1.
  assert (E1 : ((Z.of_nat (S i) - 1) * pageSize <? 0) = false)
    by (apply Z.ltb_ge; nia).
  assert (E2 : (pageSize <? 0) = false) by (apply Z.ltb_ge; lia).
  rewrite E1. cbn [orb]. cbv zeta. cbn [q_books].
  rewrite limited_nonneg by lia. do 2 f_equal. nia.
Qed.

(** X20. On a store that stays as it is and for [pageSize >= 1], the
    pages 1 to [totalPages] of [fetchBooksByQuery] one after the other
    are all the matching titles by descending [id]: [totalBooks] of
    them, each matching title once. *)
Theorem fetchBooksByQuery_pages_cover
  (query : string) (pageSize : Z) (s : Store) :
  1 <= pageSize -> rejected 0 s = false -> rejected 1 s = false ->
  exists r1 k,
    outcome (fetchBooksByQuery query 1 pageSize s) = Returned r1 /\
    q_totalPages r1 = Num (Z.of_nat k) /\
    search_concat query pageSize s k =
    order_rows (fun a b => id b <=? id a)
               (filter (query_match query) (tbl_books s)) /\
    Z.of_nat (List.length (search_concat query pageSize s k)) =
    q_totalBooks r1 /\
    Permutation (filter (query_match query) (tbl_books s))
                (search_concat query pageSize s k).
Proof.
  intros Hs R0 R1. rewrite fetchBooksByQuery_run, R0, R1.
  assert (E1 : ((1 - 1) * pageSize <? 0) = false) by (apply Z.ltb_ge; nia).
  assert (E2 : (pageSize <? 0) = false) by (apply Z.ltb_ge; lia).
  rewrite E1. cbn [orb]. cbv zeta.
  set (M := filter (query_match query) (tbl_books s)).
  set (L := order_rows (fun a b => id b <=? id a) M).
  assert (HL : List.length L = List.length M) by apply order_rows_length.
  destruct (math_ceil_div_pos (Z.of_nat (List.length M)) pageSize Hs)
    as (k & Hk & Hbound).
  assert (Hk0 : 0 <= k) by nia.
  eexists. exists (Z.to_nat k). split; [reflexivity|].
  cbn [q_totalPages q_totalBooks]. rewrite Z2Nat.id by exact Hk0.
  split; [exact Hk|].
  rewrite (search_concat_firstn query pageSize s (Z.to_nat k) Hs R0 R1).
  fold M. fold L. rewrite firstn_all2 by (rewrite HL; nia).
  split; [reflexivity|]. split; [rewrite HL; reflexivity|].
  apply order_rows_perm.
Qed.

Lemma fetchBooksByQuery_pages_cover_witness :
  search_concat "e" 2 shelf 2 = [ulysses; emma; dune].
Proof.
  destruct (fetchBooksByQuery_pages_cover "e" 2 shelf)
    as (r1 & k & H & Hk & Hcat & _); [lia|reflexivity|reflexivity|].
  vm_compute in H. injection H as <-. cbn [q_totalPages] in Hk.
  injection Hk as Hk. replace k with 2%nat in Hcat by lia.
  rewrite Hcat. reflexivity.
Defined.

(** ** The two lookups of a title *)

(** X21. [readSingleBook] and [fetchBookById] agree on the title: on a
    store that accepts the statements, one yields [null] exactly when
    the other does, and otherwise the title inside the answer of
    [readSingleBook] is the record [fetchBookById] returns. *)
Theorem readSingleBook_fetchBookById (bookId' : Z) (s : Store) :
  rejected 0 s = false -> rejected 1 s = false ->
  (outcome (readSingleBook bookId' s) = Returned Null <->
   outcome (fetchBookById bookId' s) = Returned Null) /\
  (forall v,
     outcome (readSingleBook bookId' s) = Returned (Value v) <->
     outcome (fetchBookById bookId' s) = Returned (Value (book v)) /\
     availableBooks v = available_copies bookId' s).
Proof.
  intros R0 R1. rewrite readSingleBook_run, fetchBookById_run, R0, R1.
  unfold outcome. cbn [fst].
  destruct (find (eq_Z id bookId') (tbl_books s)) as [t|]; cbn [fst].
  - split; [split; discriminate|]. intros [t' a]. cbn [book availableBooks].
    split.
    + intros [= <- <-]. split; reflexivity.
    + intros [[= <-] ->]. reflexivity.
  - split; [split; reflexivity|]. intros v. split; [discriminate|].
    intros [H _]. discriminate H.
Qed.

Lemma readSingleBook_fetchBookById_witness :
  outcome (fetchBookById 1 shelf) = Returned (Value dune).
Proof.
  exact (proj1 (proj1 (proj2 (readSingleBook_fetchBookById 1 shelf eq_refl
                                eq_refl) (mkBookWithAvailability dune 2))
                  eq_refl)).
Defined.

(** X22. A copy added to a title shows in its availability: after
    [createPhysicalBooks], accepted by the store, [readSingleBook] of
    the title reports one more available copy when the copy was created
    not borrowed, and the same number when it was created borrowed. *)
Theorem createPhysicalBooks_then_available
  (bookId' : Z) (borrowed' : bool) (returnDate' : option string)
  (userId' : string) (currTransactionId' : Z) (s : Store) (t : Book) :
  rejected 0 s = false -> rejected 1 s = false -> rejected 2 s = false ->
  find (eq_Z id bookId') (tbl_books s) = Some t ->
  outcome
    (readSingleBook bookId'
       (final (createPhysicalBooks bookId' borrowed' returnDate' userId'
                                   currTransactionId' s))) =
  Returned
    (Value
       (mkBookWithAvailability t
          (available_copies bookId' s + if borrowed' then 0 else 1))).
Proof.
  intros R0 R1 R2 F. rewrite createPhysicalBooks_run, R0. unfold final.
  cbn [snd]. cbv zeta.
  set (row := mkPhysicalBook (next_pid s) bookId' borrowed' returnDate'
                             (Some userId') (Some currTransactionId')).
  set (s' := with_next_pid _ _).
  rewrite readSingleBook_run.
  rewrite (rejected_after_n 0 s s' eq_refl), (rejected_after_n 1 s s' eq_refl).
  rewrite R1, R2.
  change (tbl_books s') with (tbl_books s). rewrite F.
  unfold outcome. cbn [fst]. do 3 f_equal.
  unfold available_copies.
  change (tbl_physicalBooks s') with (tbl_physicalBooks s ++ [row]).
  rewrite filter_app, length_app. simpl. rewrite Z.eqb_refl.
  destruct borrowed'; simpl; lia.
Qed.

Lemma createPhysicalBooks_then_available_witness :
  outcome
    (readSingleBook 1 (final (createPhysicalBooks 1 false None "u9" 8 shelf))) =
  Returned (Value (mkBookWithAvailability dune 3)).
Proof.
  exact (createPhysicalBooks_then_available 1 false None "u9" 8 shelf dune
           eq_refl eq_refl eq_refl eq_refl).
Defined.

(** ** A new title in the search *)

Lemma starts_with_refl (q : string) : starts_with q q = true.
Proof.
  induction q as [|c q IH]; [reflexivity|]. simpl.
  rewrite Ascii.eqb_refl. exact IH.
Qed.

Lemma query_match_title (q : string) (b : Book) :
  plain q = true -> title b = q -> query_match q b = true.
Proof.
  intros Hp Ht. unfold query_match. rewrite !LOWER_app.
  change (LOWER "%") with "%"%string.
  rewrite (like_match_contains (LOWER q) (LOWER (title b))
             (plain_LOWER q Hp)).
  rewrite Ht. unfold containsb.
  rewrite (any_suffix_here _ _ (starts_with_refl (LOWER q))). reflexivity.
Qed.

(** X23. A title just created is found by its own title: after
    [createBooks] with a title free of [%], [_] and backslash, accepted
    by a store whose serial is ahead of every [id], the first page of
    [fetchBooksByQuery] on that title starts with the new row. *)
Theorem createBooks_then_search
  (isbn' title' author' genre' : string) (totalCopies' availableCopies' : Z)
  (cover' : string) (pageSize : Z) (s : Store) :
  ids_fresh s ->
  rejected 0 s = false -> rejected 1 s = false -> rejected 2 s = false ->
  plain title' = true -> 1 <= pageSize ->
  exists r rest,
    outcome
      (fetchBooksByQuery title' 1 pageSize
         (final (createBooks isbn' title' author' genre' totalCopies'
                             availableCopies' cover' s))) = Returned r /\
    q_books r =
    mkBook (next_id s) isbn' title' author' genre' totalCopies'
           availableCopies' cover' :: rest /\
    1 <= q_totalBooks r.
Proof.
  intros Hfresh R0 R1 R2 Hp Hs.
  destruct (createBooks_final isbn' title' author' genre' totalCopies'
              availableCopies' cover' s R0) as [Ht Hf].
  set (s' := final _) in *. clearbody s'.
  set (created := mkBook (next_id s) isbn' title' author' genre' totalCopies'
                         availableCopies' cover') in *.
  rewrite fetchBooksByQuery_run.
  rewrite (rejected_after_n 0 s s' Hf), (rejected_after_n 1 s s' Hf), R1, R2.
  assert (E1 : ((1 - 1) * pageSize <? 0) = false) by (apply Z.ltb_ge; nia).
  assert (E2 : (pageSize <? 0) = false) by (apply Z.ltb_ge; lia).
  rewrite E1. cbn [orb]. cbv zeta. rewrite page_slice_limited by lia.
  rewrite Ht.
  assert (Hfilter :
    filter (query_match title') (tbl_books s ++ [created]) =
    filter (query_match title') (tbl_books s) ++ [created]).
  { rewrite filter_app. simpl.
    rewrite (query_match_title title' created Hp eq_refl). reflexivity. }
  rewrite Hfilter, order_rows_snoc_first.
  - unfold page_slice. replace ((1 - 1) * pageSize) with 0 by lia.
    simpl skipn.
    replace (Z.to_nat pageSize) with (S (Z.to_nat (pageSize - 1))) by lia.
    simpl firstn. eexists. eexists. split; [reflexivity|].
    cbn [q_books q_totalBooks]. split; [reflexivity|].
    rewrite length_app. simpl. lia.
  - intros x Hx. apply filter_In in Hx. destruct Hx as [Hx _].
    specialize (Hfresh x Hx). simpl. apply Z.leb_gt. exact Hfresh.
Qed.

Lemma createBooks_then_search_witness :
  exists r rest,
    outcome
      (fetchBooksByQuery "Solaris" 1 10
         (final (createBooks "9780156027601" "Solaris" "Stanislaw Lem" "SciFi"
                             2 2 "s.png" shelf))) = Returned r /\
    q_books r =
    mkBook 4 "9780156027601" "Solaris" "Stanislaw Lem" "SciFi" 2 2 "s.png"
      :: rest.
Proof.
  destruct (createBooks_then_search "9780156027601" "Solaris" "Stanislaw Lem"
              "SciFi" 2 2 "s.png" 10 shelf)
    as (r & rest & Hr & Hb & _);
    [apply shelf_books_keyed|reflexivity|reflexivity|reflexivity|reflexivity
    |lia|].
  exists r, rest. split; assumption.
Defined.

(** ** Functions that pass a rejection on *)

(** X24. [createBooks], [readBooks], [readPhysicalBooks] and
    [getActivePhysicalBooksCount] pass a rejection of the store on to
    the caller: when a statement they issue is rejected they throw the
    store's error, and the two tables are as before. *)
Theorem rejection_is_thrown (s : Store) :
  (rejected 0 s = true ->
   (forall isbn' title' author' genre' totalCopies' availableCopies' cover',
      outcome (createBooks isbn' title' author' genre' totalCopies'
                           availableCopies' cover' s) = Thrown StoreError /\
      tbl_books (final (createBooks isbn' title' author' genre' totalCopies'
                                    availableCopies' cover' s)) =
      tbl_books s) /\
   (forall bookId',
      outcome (readPhysicalBooks bookId' s) = Thrown StoreError /\
      outcome (getActivePhysicalBooksCount bookId' s) = Thrown StoreError)) /\
  (rejected 0 s = true \/ rejected 1 s = true ->
   forall page pageSize sortField sortOrder searchQuery,
     outcome (readBooks page pageSize sortField sortOrder searchQuery s) =
     Thrown StoreError).
Proof.
  split.
  - intros R0. split.
    + intros. rewrite createBooks_run, R0. split; reflexivity.
    + intros. rewrite readPhysicalBooks_run, getActivePhysicalBooksCount_run.
      rewrite R0. split; reflexivity.
  - intros H page pageSize sortField sortOrder searchQuery.
    rewrite readBooks_run.
    destruct H as [H|H]; rewrite H; [reflexivity|].
    rewrite orb_true_r. reflexivity.
Qed.

Lemma rejection_is_thrown_witness :
  outcome (readBooks 1 10 "title" "asc" EmptyString
                     (with_faults [false; true] shelf)) = Thrown StoreError.
Proof.
  exact (proj2 (rejection_is_thrown (with_faults [false; true] shelf))
           (or_intror eq_refl) 1 10 "title" "asc" EmptyString).
Defined.

(** ** A negative page size *)

(** X25. A negative page size sets no limit.  On page 1, with the
    statements accepted, [readBooks] on a column and
    [fetchBooksByQuery] return all the matching rows, each once, and a
    number of pages that is not positive. *)
Theorem negative_page_size
  (pageSize : Z) (sortField sortOrder searchQuery query : string) (s : Store) :
  pageSize < 0 -> In sortField column_names ->
  rejected 0 s = false -> rejected 1 s = false ->
  (exists r k,
     outcome (readBooks 1 pageSize sortField sortOrder searchQuery s) =
     Returned r /\
     Permutation (matching searchQuery s) (books r) /\
     totalBooks r = Z.of_nat (List.length (matching searchQuery s)) /\
     totalPages r = Num k /\ k <= 0) /\
  (exists r k,
     outcome (fetchBooksByQuery query 1 pageSize s) = Returned r /\
     Permutation (filter (query_match query) (tbl_books s)) (q_books r) /\
     q_totalBooks r =
     Z.of_nat (List.length (filter (query_match query) (tbl_books s))) /\
     q_totalPages r = Num k /\ k <= 0).
Proof.
  intros Hneg Hname R0 R1.
  destruct (column_of_name sortField Hname) as (c & Hc & _).
  assert (E0 : ((1 - 1) * pageSize <? 0) = false) by (apply Z.ltb_ge; lia).
  assert (E1 : (pageSize <? 0) = true) by (apply Z.ltb_lt; exact Hneg).
  assert (E2 : (pageSize =? 0) = false) by (apply Z.eqb_neq; lia).
  assert (Hk : forall n : nat, - (- Z.of_nat n / pageSize) <= 0).
  { intros n. pose proof (Z.div_mod (- Z.of_nat n) pageSize ltac:(lia)) as D.
    pose proof (Z.mod_neg_bound (- Z.of_nat n) pageSize Hneg) as B. nia. }
  split.
  - rewrite readBooks_run, R0, R1.
    rewrite (books_property_column sortField c Hc), clause_order_column.
    cbn [orb]. rewrite E0. cbv zeta. unfold limited, math_ceil_div.
    rewrite E1, E2. replace ((1 - 1) * pageSize) with 0 by lia.
    eexists. eexists. split; [reflexivity|]. cbn [books totalBooks totalPages].
    split; [apply order_rows_perm|]. split; [reflexivity|].
    split; [reflexivity|apply Hk].
  - rewrite fetchBooksByQuery_run, R0, R1. cbn [orb]. rewrite E0. cbv zeta.
    unfold limited, math_ceil_div.
    rewrite E1, E2. replace ((1 - 1) * pageSize) with 0 by lia.
    eexists. eexists. split; [reflexivity|].
    cbn [q_books q_totalBooks q_totalPages].
    split; [apply order_rows_perm|]. split; [reflexivity|].
    split; [reflexivity|apply Hk].
Qed.

Lemma negative_page_size_witness :
  exists r,
    outcome (readBooks 1 (-1) "title" "asc" EmptyString shelf) = Returned r /\
    books r = [dune; emma; ulysses] /\ totalPages r = Num (-3).
Proof.
  destruct (proj1 (negative_page_size (-1) "title" "asc" EmptyString "x" shelf
                     ltac:(lia)
                     (or_intror (or_intror (or_introl eq_refl)))
                     eq_refl eq_refl))
    as (r & k & Hr & _).
  exists r. split; [exact Hr|].
  vm_compute in Hr. injection Hr as <-. split; reflexivity.
Defined.
